(** * endpoints: authentication decorators and the WSGI request adapter

    A shallow embedding of [endpoints/decorators/auth.py] and of
    [WSGI.create_request] from [endpoints/interface/wsgi.py], with the
    properties of the decorators' failure classification proved over it.

    Python objects are modelled by the small value type [PyVal]; raised
    exceptions by [Exc]; a call that may raise returns an [Outcome].  Code
    that reads or writes attributes of the decorator instance, or that calls
    a user-supplied callback, lives in the state-and-exception monad [M]. *)

From Stdlib Require Import String ZArith List Bool.
From stdpp Require Import base option list gmap strings fin_maps.

Local Open Scope string_scope.
Local Open Scope list_scope.

(** ** Python values and exceptions *)

Module Py.

(** The values the modelled code inspects: [None], booleans, integers,
    strings and file-like objects ([wsgi.input]). *)
Inductive PyVal :=
| VNone
| VBool (b : bool)
| VInt (n : Z)
| VStr (s : string)
| VFile (contents : string).

#[global] Instance PyVal_eq_dec : EqDecision PyVal.
Proof. solve_decision. Defined.

(** Python truth value: [not v] is [negb (truthy v)]. *)
Definition truthy (v : PyVal) : bool :=
  match v with
  | VNone => false
  | VBool b => b
  | VInt n => negb (n =? 0)%Z
  | VStr s => match s with EmptyString => false | String _ _ => true end
  | VFile _ => true
  end.

(** Classes of the exceptions a callback may raise.  [Subclass name base] is
    a user-defined class deriving from [base]; [KeyboardInterrupt] and
    [SystemExit] derive from [BaseException] only. *)
Inductive ExcClass :=
| Exception
| AttributeError
| TypeError
| ValueError
| KeyError
| RuntimeError
| KeyboardInterrupt
| SystemExit
| Subclass (name : string) (base : ExcClass).

#[global] Instance ExcClass_eq_dec : EqDecision ExcClass.
Proof. solve_decision. Defined.

(** [derives c k]: class [c] is [k] or has [k] among its ancestors, the test
    an [except k] clause and [isinstance] perform. *)
Fixpoint derives (c k : ExcClass) : bool :=
  if decide (c = k) then true
  else match c with
       | Subclass _ base => derives base k
       | AttributeError | TypeError | ValueError | KeyError | RuntimeError =>
           if decide (k = Exception) then true else false
       | Exception | KeyboardInterrupt | SystemExit => false
       end.

(** Raised conditions.  [CallError] and [AccessDenied] come from
    [endpoints/exception.py]; the others are ordinary Python exceptions with
    their [message]. *)
Inductive Exc :=
| PyError (cls : ExcClass) (message : string)
| CallError (code : Z) (message : string)
| AccessDenied (realm : string) (message : string).

#[global] Instance Exc_eq_dec : EqDecision Exc.
Proof. solve_decision. Defined.

(** [e.message] *)
Definition exc_message (e : Exc) : string :=
  match e with
  | PyError _ m => m
  | CallError _ m => m
  | AccessDenied _ m => m
  end.

(** Result of a call: a returned value or a raised exception. *)
Inductive Outcome (A : Type) :=
| Return (a : A)
| Raise (e : Exc).
Arguments Return {A} a.
Arguments Raise {A} e.

End Py.
Import Py.

(** ** The auth decorators ([endpoints/decorators/auth.py]) *)

Module Auth.

(** The request as the decorators see it: the three credential accessors of
    the framework's request object ([get_auth_basic()], [client_tokens],
    [access_token]).  An absent credential is [VNone] or an empty string. *)
Record Request := {
  get_auth_basic : PyVal * PyVal;
  client_tokens : PyVal * PyVal;
  access_token : PyVal;
}.

#[global] Instance Request_eq_dec : EqDecision Request.
Proof. solve_decision. Defined.

(** [decorated_self]: the controller whose method is decorated. *)
Record Controller := { request : Request }.

(** An argument handed to the validator: the request object or a value. *)
Inductive Arg :=
| ArgRequest (r : Request)
| ArgVal (v : PyVal).

#[global] Instance Arg_eq_dec : EqDecision Arg.
Proof. solve_decision. Defined.

(** The four decorator classes; methods dispatch on the class of [self]. *)
Inductive AuthClass := auth | basic_auth | client_auth | token_auth.

#[global] Instance AuthClass_eq_dec : EqDecision AuthClass.
Proof. solve_decision. Defined.

Section Decorators.

(** [W] is whatever state the user's callbacks read and write (a database,
    counters, ...); the decorator code never looks at it. *)
Context {W : Type}.

(** Modelled from the spec: [endpoints/exception.py] is not part of the
    sources.  [CallError] carries a status and a message, [AccessDenied] a
    realm and a message; whether [AccessDenied] derives from [CallError] is
    left open by this parameter.  Neither derives from [AttributeError] or
    [TypeError], and both derive from [Exception]. *)
Variable AccessDenied_is_CallError : bool.

(** [isinstance(e, CallError)], the test of [except CallError] *)
Definition isinstance_CallError (e : Exc) : bool :=
  match e with
  | CallError _ _ => true
  | AccessDenied _ _ => AccessDenied_is_CallError
  | PyError _ _ => false
  end.

(** the test of [except (AttributeError, TypeError)] *)
Definition isinstance_AttributeError_TypeError (e : Exc) : bool :=
  match e with
  | PyError c _ => derives c AttributeError || derives c TypeError
  | CallError _ _ | AccessDenied _ _ => false
  end.

(** the test of [except Exception] *)
Definition isinstance_Exception (e : Exc) : bool :=
  match e with
  | PyError c _ => derives c Exception
  | CallError _ _ | AccessDenied _ _ => true
  end.

(** A Python callable: called with positional and keyword arguments in a
    world, it returns or raises and leaves a world.  A callable that cannot
    bind the arguments it is given raises [TypeError] like any other. *)
Definition Callback : Type :=
  list Arg → gmap string Arg → W → Outcome PyVal * W.

(** What may be passed as [target]: a callable or any other value. *)
Inductive PyObj :=
| Callable (f : Callback)
| Plain (v : PyVal).

(** [if target:] functions are true, other values have their own truth. *)
Definition truthy_obj (o : PyObj) : bool :=
  match o with
  | Callable _ => true
  | Plain v => truthy v
  end.

(** The wrapped handler [func(decorated_self, *args, **kwargs)]: a callable
    like the validator, given the controller, the positional and the keyword
    arguments of the call. *)
Definition Handler : Type :=
  Controller → list PyVal → gmap string PyVal → W → Outcome PyVal * W.

(** The attributes [decorate] writes on the decorator instance; [None] is an
    attribute that was never assigned. *)
Record Instance := {
  realm : option string;
  target_callback : option PyObj;
}.

(** A new instance: neither attribute has been assigned. *)
Definition new_instance : Instance :=
  {| realm := None; target_callback := None |}.

(** Calls of user code, in the order they happen. *)
Inductive Event :=
| TargetCalled (args : list Arg) (kwargs : gmap string Arg)
| HandlerCalled (c : Controller) (args : list PyVal) (kwargs : gmap string PyVal).

Record State := {
  self : Instance;
  world : W;
  trace : list Event;
}.

(** *** The state-and-exception monad *)

Definition M (A : Type) : Type := State → Outcome A * State.

Definition ret {A} (a : A) : M A := fun st => (Return a, st).

Definition raise {A} (e : Exc) : M A := fun st => (Raise e, st).

Definition bind {A B} (m : M A) (k : A → M B) : M B :=
  fun st =>
    match m st with
    | (Return a, st') => k a st'
    | (Raise e, st') => (Raise e, st')
    end.

(** [try: body except ...]: [handlers e] is the body of the first clause
    that matches [e], or [None] when no clause does. *)
Definition try_except {A} (body : M A) (handlers : Exc → option (M A)) : M A :=
  fun st =>
    match body st with
    | (Return a, st') => (Return a, st')
    | (Raise e, st') =>
        match handlers e with
        | Some h => h st'
        | None => (Raise e, st')
        end
    end.

Definition lift {A} (o : Outcome A) : M A := fun st => (o, st).

Notation "x <- m ;; k" := (bind m (fun x => k))
  (at level 100, m at next level, right associativity).
Notation "m ;;; k" := (bind m (fun _ => k))
  (at level 100, right associativity).

(** attribute access on [self] *)
Definition get_realm : M string :=
  fun st =>
    match realm (self st) with
    | Some r => (Return r, st)
    | None => (Raise (PyError AttributeError "object has no attribute 'realm'"), st)
    end.

Definition set_realm (r : string) : M unit :=
  fun st =>
    (Return tt,
     {| self := {| realm := Some r; target_callback := target_callback (self st) |};
        world := world st; trace := trace st |}).

Definition set_target_callback (t : PyObj) : M unit :=
  fun st =>
    (Return tt,
     {| self := {| realm := realm (self st); target_callback := Some t |};
        world := world st; trace := trace st |}).

(** [self.target_callback(request, *args, **kwargs)]: a missing attribute is
    an [AttributeError], a value that is no function a [TypeError]. *)
Definition call_target_callback (request : Arg) (args : list Arg)
    (kwargs : gmap string Arg) : M PyVal :=
  fun st =>
    match target_callback (self st) with
    | None =>
        (Raise (PyError AttributeError "object has no attribute 'target_callback'"), st)
    | Some (Plain _) =>
        (Raise (PyError TypeError "object is not callable"), st)
    | Some (Callable f) =>
        let '(o, w) := f (request :: args) kwargs (world st) in
        (o, {| self := self st; world := w;
               trace := trace st ++ [TargetCalled (request :: args) kwargs] |})
    end.

(** [func(decorated_self, *args, **kwargs)] *)
Definition call_handler (func : Handler) (c : Controller) (args : list PyVal)
    (kwargs : gmap string PyVal) : M PyVal :=
  fun st =>
    let '(o, w) := func c args kwargs (world st) in
    (o, {| self := self st; world := w;
           trace := trace st ++ [HandlerCalled c args kwargs] |}).

(** *** Methods *)

Definition kwargs3 (k1 : string) (v1 : Arg) (k2 : string) (v2 : Arg)
    (k3 : string) (v3 : Arg) : gmap string Arg :=
  <[k1 := v1]> (<[k2 := v2]> (<[k3 := v3]> ∅)).

Definition kwargs2 (k1 : string) (v1 : Arg) (k2 : string) (v2 : Arg) : gmap string Arg :=
  <[k1 := v1]> (<[k2 := v2]> ∅).

(** [auth.normalize_target_params] *)
Definition auth_normalize_target_params (request : Request) (args : list PyVal)
    (kwargs : gmap string PyVal) : Outcome (list Arg * gmap string Arg) :=
  let param_args := [ArgRequest request] ++ (ArgVal <$> args) in
  Return (param_args, ArgVal <$> kwargs).

(** [basic_auth.normalize_target_params] *)
Definition basic_auth_normalize_target_params (request : Request) (args : list PyVal)
    (kwargs : gmap string PyVal) : Outcome (list Arg * gmap string Arg) :=
  let '(username, password) := get_auth_basic request in
  if negb (truthy username) then Raise (PyError ValueError "username is required")
  else if negb (truthy password) then Raise (PyError ValueError "password is required")
  else
    Return ([], kwargs3 "request" (ArgRequest request)
                        "username" (ArgVal username)
                        "password" (ArgVal password)).

(** [client_auth.normalize_target_params] *)
Definition client_auth_normalize_target_params (request : Request) (args : list PyVal)
    (kwargs : gmap string PyVal) : Outcome (list Arg * gmap string Arg) :=
  let '(client_id, client_secret) := client_tokens request in
  if negb (truthy client_id) then Raise (PyError ValueError "client_id is required")
  else if negb (truthy client_secret) then
    Raise (PyError ValueError "client_secret is required")
  else
    Return ([], kwargs3 "request" (ArgRequest request)
                        "client_id" (ArgVal client_id)
                        "client_secret" (ArgVal client_secret)).

(** [token_auth.normalize_target_params] *)
Definition token_auth_normalize_target_params (request : Request) (args : list PyVal)
    (kwargs : gmap string PyVal) : Outcome (list Arg * gmap string Arg) :=
  let access_token := access_token request in
  if negb (truthy access_token) then
    Raise (PyError ValueError "access_token is required")
  else
    Return ([], kwargs2 "request" (ArgRequest request)
                        "access_token" (ArgVal access_token)).

(** [self.normalize_target_params(...)], resolved on the class of [self] *)
Definition normalize_target_params (cls : AuthClass) :
    Request → list PyVal → gmap string PyVal → Outcome (list Arg * gmap string Arg) :=
  match cls with
  | auth => auth_normalize_target_params
  | basic_auth => basic_auth_normalize_target_params
  | client_auth => client_auth_normalize_target_params
  | token_auth => token_auth_normalize_target_params
  end.

Definition validator_required : string :=
  "You need a validator function to use authentication".

(** [auth.target], inherited by every class *)
Definition target (request : Arg) (args : list Arg) (kwargs : gmap string Arg) : M PyVal :=
  try_except
    (call_target_callback request args kwargs)
    (fun e =>
       if isinstance_AttributeError_TypeError e
       then Some (raise (CallError 403 validator_required))
       else None).

(** The call of [self.target] with [*param_args, **param_kwargs]: the
    parameter [request] of [target] takes the first positional argument, or
    else the keyword argument of that name; the rest goes to [*args] and
    [**kwargs]. *)
Definition apply_target (param_args : list Arg) (param_kwargs : gmap string Arg) : M PyVal :=
  match param_args with
  | request :: args => target request args param_kwargs
  | [] =>
      match param_kwargs !! "request" with
      | Some request => target request [] (delete "request" param_kwargs)
      | None => raise (PyError TypeError "target() takes at least 2 arguments (1 given)")
      end
  end.

(** [auth.handle_target], inherited by every class *)
Definition handle_target (cls : AuthClass) (request : Request) (args : list PyVal)
    (kwargs : gmap string PyVal) : M unit :=
  try_except
    (p <- lift (normalize_target_params cls request args kwargs) ;;
     ret_ <- apply_target (fst p) (snd p) ;;
     if negb (truthy ret_)
     then raise (PyError ValueError "target did not return True")
     else ret tt)
    (fun e =>
       if isinstance_CallError e then Some (raise e)
       else if isinstance_Exception e then
         Some (r <- get_realm ;; raise (AccessDenied r (exc_message e)))
       else None).

(** The callable [decorate] returns. *)
Definition Decorated : Type :=
  Controller → list PyVal → gmap string PyVal → M PyVal.

Definition multiple_values (name : string) : string :=
  "handle_target() got multiple values for keyword argument '" +:+ name +:+ "'".

(** The call [self.handle_target(decorated_self.request, *args, **kwargs)]:
    the parameters [self] and [request] of
    [handle_target(self, request, *args, **kwargs)] are filled by the bound
    instance and by the first argument, so a keyword argument named
    [request] or [self] gives the parameter a second value, and the call
    raises [TypeError] before the body of [handle_target] and its [try] are
    entered.  (With both keywords, the one Python names depends on the order
    of the dict; here it is [request].)  Otherwise the body runs with the
    arguments as given. *)
Definition call_handle_target (cls : AuthClass) (request : Request) (args : list PyVal)
    (kwargs : gmap string PyVal) : M unit :=
  match kwargs !! "request", kwargs !! "self" with
  | Some _, _ => raise (PyError TypeError (multiple_values "request"))
  | None, Some _ => raise (PyError TypeError (multiple_values "self"))
  | None, None => handle_target cls request args kwargs
  end.

(** the closure [decorated] of [auth.decorate] *)
Definition decorated (cls : AuthClass) (func : Handler) : Decorated :=
  fun decorated_self args kwargs =>
    call_handle_target cls (request decorated_self) args kwargs ;;;
    call_handler func decorated_self args kwargs.

(** [auth.decorate(self, func, realm='', target=None, *anoop, **kwnoop)] *)
Definition auth_decorate (cls : AuthClass) (func : Handler) (realm : string)
    (target : PyObj) : M Decorated :=
  set_realm realm ;;;
  (if truthy_obj target then set_target_callback target else ret tt) ;;;
  ret (decorated cls func).

(** [basic_auth.decorate(self, func, target)] *)
Definition basic_auth_decorate (cls : AuthClass) (func : Handler) (target : PyObj) :
    M Decorated :=
  auth_decorate cls func "basic" target.

(** [client_auth.decorate(self, func, target)]: [super] is [basic_auth] *)
Definition client_auth_decorate (cls : AuthClass) (func : Handler) (target : PyObj) :
    M Decorated :=
  basic_auth_decorate cls func target.

(** [token_auth.decorate(self, func, target)] *)
Definition token_auth_decorate (cls : AuthClass) (func : Handler) (target : PyObj) :
    M Decorated :=
  auth_decorate cls func "Bearer" target.

(** The arguments [decorate] is called with besides [func], as written in
    [@cls(realm=..., target=...)]; [None] is an argument that was not
    passed. *)
Record DecoratorArgs := {
  arg_realm : option string;
  arg_target : option PyObj;
}.

Definition missing_target_message : string :=
  "decorate() takes exactly 3 arguments (2 given)".

Definition unexpected_realm_message : string :=
  "decorate() got an unexpected keyword argument 'realm'".

(** Binding of these arguments to [decorate(self, func, target)]: [target]
    is required and [realm] is not a parameter. *)
Definition bind_target (a : DecoratorArgs) : Outcome PyObj :=
  match arg_realm a, arg_target a with
  | Some _, _ => Raise (PyError TypeError unexpected_realm_message)
  | None, None => Raise (PyError TypeError missing_target_message)
  | None, Some t => Return t
  end.

(** The call [self.decorate(func, ...)], resolved on the class of [self].
    When the decorator machinery ([FuncDecorator], not part of the sources)
    makes this call is not modelled. *)
Definition decorate (cls : AuthClass) (func : Handler) (a : DecoratorArgs) : M Decorated :=
  match cls with
  | auth =>
      auth_decorate cls func (default "" (arg_realm a))
                    (default (Plain VNone) (arg_target a))
  | basic_auth => t <- lift (bind_target a) ;; basic_auth_decorate cls func t
  | client_auth => t <- lift (bind_target a) ;; client_auth_decorate cls func t
  | token_auth => t <- lift (bind_target a) ;; token_auth_decorate cls func t
  end.

(** *** Validators written as Python functions *)

(** Binding of a call to the parameters of [def f(p1, ..., pn)]: positional
    arguments fill the parameters from the left, keyword arguments by name;
    too many or too few arguments, an unknown keyword or a parameter given
    twice do not bind. *)
Fixpoint bind_params (params : list string) (args : list Arg)
    (kwargs : gmap string Arg) : option (list Arg) :=
  match params with
  | [] =>
      match args with
      | [] => if decide (kwargs = ∅) then Some [] else None
      | _ :: _ => None
      end
  | p :: ps =>
      match args with
      | x :: xs =>
          match kwargs !! p with
          | Some _ => None
          | None => cons x <$> bind_params ps xs kwargs
          end
      | [] =>
          match kwargs !! p with
          | Some x => cons x <$> bind_params ps [] (delete p kwargs)
          | None => None
          end
      end
  end.

(** A callable defined with named parameters: a call that does not bind
    raises [TypeError] before the body runs. *)
Definition py_def (params : list string)
    (body : list Arg → W → Outcome PyVal * W) : Callback :=
  fun args kwargs w =>
    match bind_params params args kwargs with
    | Some bound => body bound w
    | None => (Raise (PyError TypeError "function arguments do not match its parameters"), w)
    end.

(** [x == s] for a string literal [s] *)
Definition arg_is_str (x : Arg) (s : string) : bool :=
  bool_decide (x = ArgVal (VStr s)).

(** *** Vocabulary of the specification

    The definitions below follow the words of the specification, not the
    code; the theorems relate them to the methods above. *)

(** A state for the call of [decorate]: a new instance and no call of user
    code yet. *)
Definition fresh (w : W) : State :=
  {| self := new_instance; world := w; trace := [] |}.

(** The state of a later request: the instance as given, any world, any
    earlier calls. *)
Definition at_request (i : Instance) (w : W) (tr : list Event) : State :=
  {| self := i; world := w; trace := tr |}.

(** The required credential fields of each scheme, by name, with the value
    the request carries for them (section 4.1 of the specification). *)
Definition required_fields (cls : AuthClass) (r : Request) : list (string * PyVal) :=
  match cls with
  | auth => []
  | basic_auth =>
      [("username", fst (get_auth_basic r)); ("password", snd (get_auth_basic r))]
  | client_auth =>
      [("client_id", fst (client_tokens r)); ("client_secret", snd (client_tokens r))]
  | token_auth => [("access_token", access_token r)]
  end.

(** A field is missing when its value is empty or absent. *)
Definition missing (fv : string * PyVal) : bool := negb (truthy (snd fv)).

Definition as_kwargs (fields : list (string * PyVal)) : gmap string Arg :=
  list_to_map (prod_map id ArgVal <$> fields).

(** What the validator is to be called with (section 4.3): the request, then
    for the generic form the handler's own arguments, for a scheme its
    credential fields by name. *)
Definition validator_arguments (cls : AuthClass) (r : Request) (args : list PyVal)
    (kwargs : gmap string PyVal) : list Arg * gmap string Arg :=
  match cls with
  | auth => (ArgRequest r :: (ArgVal <$> args), ArgVal <$> kwargs)
  | _ => ([ArgRequest r], as_kwargs (required_fields cls r))
  end.

(** The realm a scheme fixes; the generic form takes the caller's. *)
Definition fixed_realm (cls : AuthClass) : option string :=
  match cls with
  | auth => None
  | basic_auth => Some "basic"
  | client_auth => Some "basic"
  | token_auth => Some "Bearer"
  end.

(** The classification of a validator's outcome (section 4.2, in the order
    section 9 ranks it): a setup error first, then a [CallError] of the
    validator passed through, then authentication failure, else success. *)
Definition verdict (r : string) (o : Outcome PyVal) : Outcome unit :=
  match o with
  | Return v =>
      if truthy v then Return tt
      else Raise (AccessDenied r "target did not return True")
  | Raise e =>
      if isinstance_AttributeError_TypeError e then
        Raise (CallError 403 validator_required)
      else if isinstance_CallError e then Raise e
      else if isinstance_Exception e then Raise (AccessDenied r (exc_message e))
      else Raise e
  end.

(** [e] is an exception of the validator, not of the decorator: the
    validator held by instance [i] raises it on the arguments [va] in world
    [w], and [except CallError: raise] lets it through. *)
Definition raised_by_validator (i : Instance) (va : list Arg * gmap string Arg)
    (w : W) (e : Exc) : Prop :=
  isinstance_CallError e = true ∧
  ∃ f, target_callback i = Some (Callable f) ∧ fst (f (fst va) (snd va) w) = Raise e.

(** Number of calls of the handler in a trace. *)
Definition is_handler_call (e : Event) : bool :=
  match e with HandlerCalled _ _ _ => true | TargetCalled _ _ => false end.

Definition handler_calls (tr : list Event) : nat :=
  length (filter (fun e => is_handler_call e = true) tr).

End Decorators.

Arguments Callback : clear implicits.
Arguments Handler : clear implicits.
Arguments PyObj : clear implicits.
Arguments Instance : clear implicits.
Arguments State : clear implicits.
Arguments Decorated : clear implicits.
Arguments DecoratorArgs : clear implicits.

End Auth.

(** ** The WSGI adapter ([endpoints/interface/wsgi.py]) *)

Module Wsgi.

(** Modelled from the spec: the request class is not part of the sources.  A
    request carries headers, method, path, query, the raw request and a body
    (section 3); a new request has no headers and [None] elsewhere. *)
Record Request := {
  headers : gmap string PyVal;
  method : PyVal;
  path : PyVal;
  query : PyVal;
  raw_request : option (gmap string PyVal);
  body : PyVal;
}.

Definition request_class : Request :=
  {| headers := ∅; method := VNone; path := VNone; query := VNone;
     raw_request := None; body := VNone |}.

(** sequencing of calls that may raise *)
Definition and_then {A B} (o : Outcome A) (k : A → Outcome B) : Outcome B :=
  match o with
  | Return a => k a
  | Raise e => Raise e
  end.

Notation "x <- o ;; k" := (and_then o (fun x => k))
  (at level 100, o at next level, right associativity).

(** [d[k]] on a dict *)
Definition getitem (d : gmap string PyVal) (k : string) : Outcome PyVal :=
  match d !! k with
  | Some v => Return v
  | None => Raise (PyError KeyError k)
  end.

(** [stream.read()]: the whole contents of a file-like object *)
Definition read (stream : PyVal) : Outcome PyVal :=
  match stream with
  | VFile contents => Return (VStr contents)
  | _ => Raise (PyError AttributeError "object has no attribute 'read'")
  end.

(** [k.startswith(p)] *)
Definition startswith (k p : string) : bool := String.prefix p k.

(** [k[n:]] *)
Fixpoint slice_from (n : nat) (k : string) : string :=
  match n, k with
  | O, _ => k
  | S n', String _ k' => slice_from n' k'
  | S _, EmptyString => EmptyString
  end.

(** The loop over [raw_request.iteritems()], run on the headers [h]. *)
Definition copy_headers (items : list (string * PyVal)) (h : gmap string PyVal) :
    gmap string PyVal :=
  foldl (fun h kv =>
           if startswith (fst kv) "HTTP_"
           then <[slice_from 5 (fst kv) := snd kv]> h
           else h)
        h items.

Section CreateRequest.

(** Modelled from the spec: [is_method] belongs to the request class, which
    is not part of the sources; [r.is_method(name)] is a test of the method
    of [r] against [name], left open by this parameter. *)
Variable is_method : PyVal → string → bool.

(** [WSGI.create_request] *)
Definition create_request (raw : gmap string PyVal) : Outcome Request :=
  let r := request_class in
  let h := copy_headers (map_to_list raw) (headers r) in
  m <- getitem raw "REQUEST_METHOD" ;;
  p <- getitem raw "PATH_INFO" ;;
  q <- getitem raw "QUERY_STRING" ;;
  b <- (if is_method m "POST"
        then (input <- getitem raw "wsgi.input" ;; read input)
        else Return VNone) ;;
  Return {| headers := h; method := m; path := p; query := q;
            raw_request := Some raw; body := b |}.

End CreateRequest.

(** [r.is_method(name)] as an exact comparison of the method with [name]. *)
Definition is_method_exact (m : PyVal) (name : string) : bool :=
  bool_decide (m = VStr name).

(** A POST and a GET environ. *)
Definition post_environ : gmap string PyVal :=
  <["REQUEST_METHOD" := VStr "POST"]>
    (<["PATH_INFO" := VStr "/foo"]>
       (<["QUERY_STRING" := VStr ""]>
          (<["HTTP_HOST" := VStr "localhost"]>
             (<["CONTENT_TYPE" := VStr "text/plain"]>
                (<["wsgi.input" := VFile "a=1"]> ∅))))).

Definition get_environ : gmap string PyVal :=
  <["REQUEST_METHOD" := VStr "GET"]> post_environ.

End Wsgi.

(** ** The scenarios of the specification (section 8) and of the docstrings *)

Module Scenarios.
Import Auth.

(** The world of the scenarios counts the runs of validator bodies. *)
Definition World : Type := nat.

Definition no_credentials : Request :=
  {| get_auth_basic := (VNone, VNone);
     client_tokens := (VNone, VNone);
     access_token := VNone |}.

Definition basic_request (username password : string) : Request :=
  {| get_auth_basic := (VStr username, VStr password);
     client_tokens := (VNone, VNone);
     access_token := VNone |}.

Definition client_request (client_id client_secret : string) : Request :=
  {| get_auth_basic := (VNone, VNone);
     client_tokens := (VStr client_id, VStr client_secret);
     access_token := VNone |}.


(** [def target(request, username, password):
       return username == "foo" and password == "bar"] *)
Definition basic_target : Callback World :=
  py_def ["request"; "username"; "password"]
    (fun bound w =>
       match bound with
       | [_; username; password] =>
           (Return (VBool (arg_is_str username "foo" && arg_is_str password "bar")), S w)
       | _ => (Return VNone, S w)
       end).

(** [def target(request, client_id, client_secret):
       return client_id == "foo" and client_secret == "bar"] *)
Definition client_target : Callback World :=
  py_def ["request"; "client_id"; "client_secret"]
    (fun bound w =>
       match bound with
       | [_; client_id; client_secret] =>
           (Return (VBool (arg_is_str client_id "foo" && arg_is_str client_secret "bar")),
            S w)
       | _ => (Return VNone, S w)
       end).

(** [def target(request, access_token): return access_token == "foo"] *)
Definition token_target : Callback World :=
  py_def ["request"; "access_token"]
    (fun bound w =>
       match bound with
       | [_; access_token] => (Return (VBool (arg_is_str access_token "foo")), S w)
       | _ => (Return VNone, S w)
       end).

(** A validator whose body fails on a lookup (scenario 5):
    [def target(request): raise KeyError("no such user")] *)
Definition lookup_failure_target : Callback World :=
  py_def ["request"] (fun _ w => (Raise (PyError KeyError "no such user"), S w)).


(** A validator that ends the process; [SystemExit] does not derive from
    [Exception]:
    [def target(request, username, password): sys.exit("bye")] *)
Definition exiting_target : Callback World :=
  py_def ["request"; "username"; "password"]
    (fun _ w => (Raise (PyError SystemExit "bye"), S w)).


(** A validator written for other parameter names than the decorator uses:
    [def target(request, user, pw): ...] *)
Definition misnamed_target : Callback World :=
  py_def ["request"; "user"; "pw"] (fun _ w => (Return (VBool true), S w)).

(** [def GET(self): return "hello world"] *)
Definition hello_world : Handler World :=
  fun _ _ _ w => (Return (VStr "hello world"), w).

Definition controller (r : Request) : Controller := {| request := r |}.

(** [@cls(target=t)] and [@cls()] *)
Definition with_target (t : PyObj World) : DecoratorArgs World :=
  {| arg_realm := None; arg_target := Some t |}.

Definition without_arguments : DecoratorArgs World :=
  {| arg_realm := None; arg_target := None |}.

(** The scenarios take [AccessDenied] to derive from [CallError]; none of
    them depends on it.  [decoration cls a] decorates [hello_world] on a new
    instance, [instance_of cls a] is the instance it leaves, and
    [call cls a q w tr] calls the decorated handler for the request [q]. *)
Definition decoration (cls : AuthClass) (a : DecoratorArgs World) :
    Outcome (Decorated World) * State World :=
  decorate true cls hello_world a (fresh 0).

Definition instance_of (cls : AuthClass) (a : DecoratorArgs World) : Instance World :=
  self (snd (decoration cls a)).

Definition call (cls : AuthClass) (a : DecoratorArgs World) (q : Request)
    (w : World) (tr : list Event) : Outcome PyVal * State World :=
  decorated true cls hello_world (controller q) [] ∅ (at_request (instance_of cls a) w tr).

(** The same call with the keyword argument [request="x"], as a query
    string [?request=x] gives it. *)
Definition request_keyword : gmap string PyVal := <["request" := VStr "x"]> ∅.

Definition call_with_request_keyword (cls : AuthClass) (a : DecoratorArgs World)
    (q : Request) (w : World) (tr : list Event) : Outcome PyVal * State World :=
  decorated true cls hello_world (controller q) [] request_keyword
    (at_request (instance_of cls a) w tr).

End Scenarios.

(** ** Further vocabulary *)

Module More.
Import Auth.

(** Number of calls of the validator in a trace. *)
Definition is_target_call (e : Event) : bool :=
  match e with TargetCalled _ _ => true | HandlerCalled _ _ _ => false end.

Definition validator_calls (tr : list Event) : nat :=
  length (filter (fun e => is_target_call e = true) tr).


(** [@auth("custom", target=lookup_failure_target)] *)
Definition custom_auth : DecoratorArgs Scenarios.World :=
  {| arg_realm := Some "custom";
     arg_target := Some (Callable Scenarios.lookup_failure_target) |}.

(** A GET environ that lacks its path. *)
Definition environ_without_path : gmap string PyVal :=
  delete "PATH_INFO" Wsgi.get_environ.

End More.

(** ** Properties of the auth decorators *)

Module AuthFacts.
Import Auth.

(** unfold the monad under a run *)
Ltac run :=
  unfold Auth.decorated, Auth.handle_target, Auth.apply_target, Auth.target,
    Auth.call_target_callback, Auth.call_handler, Auth.get_realm,
    Auth.try_except, Auth.bind, Auth.lift, Auth.ret, Auth.raise, at_request;
  simpl.

(** one case per required field *)
Ltac field_cases H :=
  repeat (apply elem_of_cons in H as [-> | H]); [.. | by inversion H].

Section Facts.

Context {W : Type}.
Variable AccessDenied_is_CallError : bool.

Abbreviation isinstance_CallError := (Auth.isinstance_CallError AccessDenied_is_CallError).
Abbreviation handle_target := (Auth.handle_target (W:=W) AccessDenied_is_CallError).
Abbreviation decorated := (Auth.decorated (W:=W) AccessDenied_is_CallError).
Abbreviation decorate := (Auth.decorate (W:=W) AccessDenied_is_CallError).
Abbreviation raised_by_validator :=
  (Auth.raised_by_validator (W:=W) AccessDenied_is_CallError).

Implicit Types (cls : AuthClass) (func : Handler W) (a : DecoratorArgs W).
Implicit Types (st : State W) (i : Instance W) (w : W) (tr : list Event).
Implicit Types (c : Controller) (args : list PyVal) (kwargs : gmap string PyVal).
Implicit Types (f : Callback W) (e : Exc) (r : string).

(** *** The decoration step *)

Lemma auth_decorate_run cls func r (t : PyObj W) st :
  auth_decorate AccessDenied_is_CallError cls func r t st =
  (Return (decorated cls func),
   {| self := {| realm := Some r;
                 target_callback :=
                   if truthy_obj t then Some t else target_callback (self st) |};
      world := world st; trace := trace st |}).
Proof.
  unfold auth_decorate, Auth.bind, set_realm, set_target_callback, Auth.ret.
  destruct (truthy_obj t); reflexivity.
Qed.

Lemma decorate_returns cls func a st d st1 :
  decorate cls func a st = (Return d, st1) →
  d = decorated cls func ∧
  ∃ r (t : PyObj W),
    (cls = auth ∧ r = default "" (arg_realm a) ∧ t = default (Plain VNone) (arg_target a)
     ∨ fixed_realm cls = Some r ∧ arg_target a = Some t) ∧
    st1 = {| self := {| realm := Some r;
                        target_callback :=
                          if truthy_obj t then Some t else target_callback (self st) |};
             world := world st; trace := trace st |}.
Proof.
  destruct cls; simpl; unfold Auth.bind, Auth.lift, bind_target,
    client_auth_decorate, basic_auth_decorate, token_auth_decorate.
  - rewrite auth_decorate_run. intros [= <- <-]. split; [done|].
    eexists _, _. split; [left; done | done].
  - destruct (arg_realm a), (arg_target a) as [t|]; try discriminate.
    rewrite auth_decorate_run. intros [= <- <-]. split; [done|].
    eexists _, t. split; [right; done | done].
  - destruct (arg_realm a), (arg_target a) as [t|]; try discriminate.
    rewrite auth_decorate_run. intros [= <- <-]. split; [done|].
    eexists _, t. split; [right; done | done].
  - destruct (arg_realm a), (arg_target a) as [t|]; try discriminate.
    rewrite auth_decorate_run. intros [= <- <-]. split; [done|].
    eexists _, t. split; [right; done | done].
Qed.

(** *** Credential extraction *)

(** Either some required field is missing and the extraction raises the
    [ValueError] naming the first such field, or none is and it returns. *)
Lemma normalize_cases cls (q : Request) args kwargs :
  (∃ fv, fv ∈ required_fields cls q ∧ missing fv = true ∧
         normalize_target_params cls q args kwargs =
         Raise (PyError ValueError (fst fv +:+ " is required")))
  ∨ ((∀ fv, fv ∈ required_fields cls q → missing fv = false) ∧
     ∃ p, normalize_target_params cls q args kwargs = Return p).
Proof.
  unfold missing. destruct cls; simpl.
  - right. split; [intros fv H; inversion H | by eexists].
  - unfold basic_auth_normalize_target_params.
    destruct (get_auth_basic q) as [u pw]; simpl.
    destruct (truthy u) eqn:Hu; simpl.
    + destruct (truthy pw) eqn:Hp; simpl.
      * right. split; [|by eexists].
        intros fv H. field_cases H; simpl; by rewrite ?Hu, ?Hp.
      * left. exists ("password", pw). simpl. rewrite Hp.
        split; [repeat constructor | done].
    + left. exists ("username", u). simpl. rewrite Hu.
      split; [repeat constructor | done].
  - unfold client_auth_normalize_target_params.
    destruct (client_tokens q) as [u pw]; simpl.
    destruct (truthy u) eqn:Hu; simpl.
    + destruct (truthy pw) eqn:Hp; simpl.
      * right. split; [|by eexists].
        intros fv H. field_cases H; simpl; by rewrite ?Hu, ?Hp.
      * left. exists ("client_secret", pw). simpl. rewrite Hp.
        split; [repeat constructor | done].
    + left. exists ("client_id", u). simpl. rewrite Hu.
      split; [repeat constructor | done].
  - unfold token_auth_normalize_target_params.
    destruct (truthy (access_token q)) eqn:Hu; simpl.
    + right. split; [|by eexists].
      intros fv H. field_cases H; simpl; by rewrite Hu.
    + left. exists ("access_token", access_token q). simpl. rewrite Hu.
      split; [repeat constructor | done].
Qed.



Lemma delete_request_kwargs3 (x : Arg) k2 (v2 : Arg) k3 (v3 : Arg) :
  k2 ≠ "request" → k3 ≠ "request" →
  delete "request" (kwargs3 "request" x k2 v2 k3 v3) = <[k2 := v2]> (<[k3 := v3]> ∅).
Proof.
  intros H2 H3. unfold kwargs3. apply delete_insert_id.
  by rewrite !lookup_insert_ne, lookup_empty.
Qed.

Lemma delete_request_kwargs2 (x : Arg) k2 (v2 : Arg) :
  k2 ≠ "request" →
  delete "request" (kwargs2 "request" x k2 v2) = <[k2 := v2]> ∅.
Proof.
  intros H2. unfold kwargs2. apply delete_insert_id.
  by rewrite lookup_insert_ne, lookup_empty.
Qed.

(** After a successful extraction the call of [self.target] hands the
    validator exactly [validator_arguments]. *)
Lemma normalize_present cls (q : Request) args kwargs p :
  normalize_target_params cls q args kwargs = Return p →
  fst (validator_arguments cls q args kwargs) =
    ArgRequest q :: tail (fst (validator_arguments cls q args kwargs)) ∧
  apply_target (W:=W) (fst p) (snd p) =
    target (ArgRequest q) (tail (fst (validator_arguments cls q args kwargs)))
           (snd (validator_arguments cls q args kwargs)).
Proof.
  destruct cls; simpl.
  - unfold auth_normalize_target_params. by intros [= <-].
  - unfold basic_auth_normalize_target_params.
    destruct (get_auth_basic q) as [u pw]; simpl.
    destruct (truthy u), (truthy pw); simpl; try discriminate.
    intros [= <-]. split; [done|].
    unfold apply_target. simpl. unfold kwargs3 at 1. rewrite lookup_insert_eq.
    by rewrite delete_request_kwargs3.
  - unfold client_auth_normalize_target_params.
    destruct (client_tokens q) as [u pw]; simpl.
    destruct (truthy u), (truthy pw); simpl; try discriminate.
    intros [= <-]. split; [done|].
    unfold apply_target. simpl. unfold kwargs3 at 1. rewrite lookup_insert_eq.
    by rewrite delete_request_kwargs3.
  - unfold token_auth_normalize_target_params.
    destruct (truthy (access_token q)); simpl; try discriminate.
    intros [= <-]. split; [done|].
    unfold apply_target. simpl. unfold kwargs2 at 1. rewrite lookup_insert_eq.
    by rewrite delete_request_kwargs2.
Qed.

(** *** The validator call and its classification *)

Lemma target_absent (x : Arg) rest vk st :
  match target_callback (self st) with Some (Callable _) => False | _ => True end →
  target x rest vk st = (Raise (CallError 403 validator_required), st).
Proof.
  run. destruct (target_callback (self st)) as [[f|v]|]; simpl; done.
Qed.

Lemma target_called (x : Arg) rest vk st f :
  target_callback (self st) = Some (Callable f) →
  target x rest vk st =
  (match fst (f (x :: rest) vk (world st)) with
   | Raise e =>
       if isinstance_AttributeError_TypeError e
       then Raise (CallError 403 validator_required) else Raise e
   | Return v => Return v
   end,
   {| self := self st; world := snd (f (x :: rest) vk (world st));
      trace := trace st ++ [TargetCalled (x :: rest) vk] |}).
Proof.
  intros Hf. run. rewrite Hf.
  destruct (f (x :: rest) vk (world st)) as [[v|e] w1]; simpl; [done|].
  destruct (isinstance_AttributeError_TypeError e); done.
Qed.

(** A missing credential: [handle_target] turns the [ValueError] of the
    extraction into [AccessDenied] and touches nothing. *)
Lemma handle_target_missing cls (q : Request) args kwargs st r m :
  normalize_target_params cls q args kwargs = Raise (PyError ValueError m) →
  realm (self st) = Some r →
  handle_target cls q args kwargs st = (Raise (AccessDenied r m), st).
Proof.
  intros Hn Hr. run. rewrite Hn. simpl. by rewrite Hr.
Qed.

(** Credentials present: [handle_target] is the classification [verdict] of
    the one validator call, or the setup error when there is no validator. *)
Lemma handle_target_present cls (q : Request) args kwargs st p r :
  normalize_target_params cls q args kwargs = Return p →
  realm (self st) = Some r →
  handle_target cls q args kwargs st =
  match target_callback (self st) with
  | Some (Callable f) =>
      let va := validator_arguments cls q args kwargs in
      (verdict AccessDenied_is_CallError r (fst (f (fst va) (snd va) (world st))),
       {| self := self st; world := snd (f (fst va) (snd va) (world st));
          trace := trace st ++ [TargetCalled (fst va) (snd va)] |})
  | _ => (Raise (CallError 403 validator_required), st)
  end.
Proof.
  intros Hn Hr. destruct (normalize_present _ _ _ _ _ Hn) as (Hva & Happ).
  unfold Auth.handle_target, Auth.try_except, Auth.bind at 1, Auth.lift.
  rewrite Hn. unfold Auth.bind. rewrite Happ.
  destruct (target_callback (self st)) as [[f|v]|] eqn:Hf.
  - rewrite (target_called _ _ _ _ f Hf). rewrite <- Hva. simpl.
    destruct (f _ _ (world st)) as [[v|e] w1]; simpl.
    + destruct (truthy v); simpl; [done|]. unfold Auth.get_realm, Auth.raise. simpl.
      by rewrite Hr.
    + destruct (isinstance_AttributeError_TypeError e); simpl; [done|].
      destruct (isinstance_CallError e); simpl; [done|].
      destruct (isinstance_Exception e); simpl; [|done].
      unfold Auth.get_realm, Auth.raise. simpl. by rewrite Hr.
  - rewrite target_absent by (by rewrite Hf). done.
  - rewrite target_absent by (by rewrite Hf). done.
Qed.

(** A keyword argument named [request] or [self]: the call of
    [handle_target] raises [TypeError], and no user code runs. *)
Lemma decorated_clash cls func c args kwargs st :
  kwargs !! "request" ≠ None ∨ kwargs !! "self" ≠ None →
  ∃ m, decorated cls func c args kwargs st = (Raise (PyError TypeError m), st).
Proof.
  intros Hk. unfold Auth.decorated, Auth.bind, call_handle_target, Auth.raise.
  destruct (kwargs !! "request"); [by eexists|].
  destruct (kwargs !! "self"); [by eexists|].
  by destruct Hk.
Qed.

Lemma clash_or_not kwargs :
  (kwargs !! "request" ≠ None ∨ kwargs !! "self" ≠ None)
  ∨ (kwargs !! "request" = None ∧ kwargs !! "self" = None).
Proof.
  destruct (kwargs !! "request"); [by left; left|].
  destruct (kwargs !! "self"); [by left; right | by right].
Qed.

Lemma decorated_run cls func c args kwargs st :
  kwargs !! "request" = None →
  kwargs !! "self" = None →
  decorated cls func c args kwargs st =
  match handle_target cls (request c) args kwargs st with
  | (Return _, st') =>
      (fst (func c args kwargs (world st')),
       {| self := self st'; world := snd (func c args kwargs (world st'));
          trace := trace st' ++ [HandlerCalled c args kwargs] |})
  | (Raise e, st') => (Raise e, st')
  end.
Proof.
  intros Hrq Hsf.
  unfold Auth.decorated, Auth.bind, call_handle_target, Auth.call_handler.
  rewrite Hrq, Hsf.
  destruct (handle_target _ _ _ _ st) as [[[]|e] st']; [|done].
  by destruct (func _ _ _ _).
Qed.

(** Every run of [handle_target] on a decorated instance falls in one of the
    two cases. *)
Lemma handle_target_cases cls (q : Request) args kwargs st r :
  realm (self st) = Some r →
  (∃ fv, fv ∈ required_fields cls q ∧ missing fv = true ∧
         handle_target cls q args kwargs st =
         (Raise (AccessDenied r (fst fv +:+ " is required")), st))
  ∨ ((∀ fv, fv ∈ required_fields cls q → missing fv = false) ∧
     handle_target cls q args kwargs st =
     match target_callback (self st) with
     | Some (Callable f) =>
         let va := validator_arguments cls q args kwargs in
         (verdict AccessDenied_is_CallError r (fst (f (fst va) (snd va) (world st))),
          {| self := self st; world := snd (f (fst va) (snd va) (world st));
             trace := trace st ++ [TargetCalled (fst va) (snd va)] |})
     | _ => (Raise (CallError 403 validator_required), st)
     end).
Proof.
  intros Hr.
  destruct (normalize_cases cls q args kwargs)
    as [(fv & Hin & Hfv & Hn) | [Hall [p Hn]]].
  - left. exists fv. eauto using handle_target_missing.
  - right. split; [done|]. eauto using handle_target_present.
Qed.

(** What decoration of a new instance leaves behind. *)
Lemma decorate_fresh cls func a w0 d st1 :
  decorate cls func a (fresh w0) = (Return d, st1) →
  d = decorated cls func ∧
  world st1 = w0 ∧ trace st1 = [] ∧
  (∃ r, realm (self st1) = Some r ∧
        (fixed_realm cls = Some r ∨ cls = auth ∧ r = default "" (arg_realm a))) ∧
  target_callback (self st1) =
    match arg_target a with
    | Some t => if truthy_obj t then Some t else None
    | None => None
    end.
Proof.
  intros H. apply decorate_returns in H as (-> & r & t & Hrt & ->). simpl.
  split; [done|]. split; [done|]. split; [done|]. split.
  - exists r. split; [done|]. destruct Hrt as [(-> & -> & _) | [Hr _]]; auto.
  - destruct Hrt as [(_ & _ & ->) | [_ ->]]; [|done].
    by destruct (arg_target a).
Qed.

(** *** The claims *)




Lemma handler_calls_target tr va vk :
  handler_calls (tr ++ [TargetCalled va vk]) = handler_calls tr.
Proof.
  unfold handler_calls. rewrite filter_app, length_app. simpl. lia.
Qed.





(** An [AccessDenied] coming out of [handle_target] either was built by
    [handle_target], with the realm of the instance, or is the validator's
    own exception passed through by [except CallError: raise]. *)
Lemma access_denied_realm cls (q : Request) args kwargs st r r' m st2 :
  realm (self st) = Some r →
  handle_target cls q args kwargs st = (Raise (AccessDenied r' m), st2) →
  r' = r ∨
  raised_by_validator (self st) (validator_arguments cls q args kwargs) (world st)
                      (AccessDenied r' m).
Proof.
  intros Hr Hh.
  destruct (handle_target_cases cls q args kwargs st r Hr)
    as [(fv & _ & _ & Hm) | [_ Hp]].
  - rewrite Hm in Hh. injection Hh as -> _ _. by left.
  - rewrite Hp in Hh. clear Hp.
    destruct (target_callback (self st)) as [[f|v]|] eqn:Hf; try discriminate.
    simpl in Hh.
    destruct (f _ _ (world st)) as [[v|e] w1] eqn:Hfe; simpl in Hh.
    + destruct (truthy v); [discriminate|]. injection Hh as -> _ _. by left.
    + destruct (isinstance_AttributeError_TypeError e); [discriminate|].
      destruct (isinstance_CallError e) eqn:Hce.
      * injection Hh as -> _. right. split; [done|].
        exists f. split; [done|]. by rewrite Hfe.
      * destruct (isinstance_Exception e) eqn:Hex.
        -- injection Hh as -> _ _. by left.
        -- injection Hh as -> _. discriminate Hex.
Qed.



(** C9.  [client_auth.decorate] forwards to [basic_auth.decorate] and sets
    no realm of its own: the realm of a [client_auth] decorator is "basic",
    and every [AccessDenied] it builds carries "basic" (the only other
    [AccessDenied] is one the validator itself raised). *)
Theorem client_auth_realm_is_basic func (t : PyObj W) w0 :
  client_auth_decorate AccessDenied_is_CallError client_auth func t =
    basic_auth_decorate AccessDenied_is_CallError client_auth func t ∧
  ∃ st1,
    decorate client_auth func {| arg_realm := None; arg_target := Some t |} (fresh w0) =
      (Return (decorated client_auth func), st1) ∧
    realm (self st1) = Some "basic" ∧
    ∀ (q : Request) args kwargs w tr r m st2,
      handle_target client_auth q args kwargs (at_request (self st1) w tr) =
        (Raise (AccessDenied r m), st2) →
      r = "basic" ∨
      raised_by_validator (self st1) (validator_arguments client_auth q args kwargs) w
                          (AccessDenied r m).
Proof.
  split; [reflexivity|].
  destruct (decorate client_auth func {| arg_realm := None; arg_target := Some t |}
              (fresh w0)) as [o st1] eqn:Hd.
  assert (o = Return (decorated client_auth func) ∧ realm (self st1) = Some "basic")
    as [-> Hr].
  { simpl in Hd. unfold Auth.bind, Auth.lift, bind_target in Hd. simpl in Hd.
    unfold client_auth_decorate, basic_auth_decorate in Hd.
    rewrite auth_decorate_run in Hd. by injection Hd as <- <-. }
  exists st1. split; [done|]. split; [done|].
  intros q args kwargs w tr r m st2 Hh.
  by apply (access_denied_realm _ _ _ _ _ "basic") in Hh.
Qed.

(** *** Calls do not write the instance *)

Lemma handle_target_self cls (q : Request) args kwargs st r :
  realm (self st) = Some r →
  self (snd (handle_target cls q args kwargs st)) = self st.
Proof.
  intros Hr.
  destruct (handle_target_cases cls q args kwargs st r Hr)
    as [(fv & _ & _ & ->) | [_ ->]]; [done|].
  by destruct (target_callback (self st)) as [[f|v]|].
Qed.

Lemma decorated_self cls func c args kwargs st r :
  realm (self st) = Some r →
  self (snd (decorated cls func c args kwargs st)) = self st.
Proof.
  intros Hr. destruct (clash_or_not kwargs) as [Hk | [Hrq Hsf]].
  { by destruct (decorated_clash cls func c args kwargs st Hk) as [m ->]. }
  rewrite decorated_run by done.
  pose proof (handle_target_self cls (request c) args kwargs st r Hr) as Hs.
  by destruct (handle_target _ _ _ _ st) as [[[]|e] st'].
Qed.

(** Two runs of [handle_target] on the same instance, in whatever worlds and
    after whatever earlier calls, end alike when the validator's answer does
    not depend on the world. *)
Lemma handle_target_agree cls (q : Request) args kwargs st st' r :
  self st' = self st →
  realm (self st) = Some r →
  (∀ f, target_callback (self st) = Some (Callable f) →
        ∀ w w', fst (f (fst (validator_arguments cls q args kwargs))
                       (snd (validator_arguments cls q args kwargs)) w) =
                fst (f (fst (validator_arguments cls q args kwargs))
                       (snd (validator_arguments cls q args kwargs)) w')) →
  fst (handle_target cls q args kwargs st') = fst (handle_target cls q args kwargs st).
Proof.
  intros Hs Hr Hdet.
  assert (realm (self st') = Some r) as Hr' by by rewrite Hs.
  unfold Auth.handle_target, Auth.try_except, Auth.bind at 1 3, Auth.lift.
  destruct (normalize_target_params cls q args kwargs) as [p|e] eqn:Hn.
  - destruct (normalize_present _ _ _ _ _ Hn) as (Hva & Happ).
    unfold Auth.bind. rewrite Happ.
    destruct (target_callback (self st)) as [[f|v]|] eqn:Hf.
    + rewrite (target_called _ _ _ st f Hf).
      rewrite (target_called _ _ _ st' f) by by rewrite Hs.
      rewrite <- Hva. rewrite (Hdet f eq_refl (world st') (world st)).
      destruct (fst (f _ _ (world st))) as [v|e]; simpl.
      * destruct (truthy v); simpl; [done|].
        unfold Auth.get_realm, Auth.raise. simpl. by rewrite Hr, Hr'.
      * destruct (isinstance_AttributeError_TypeError e); simpl; [done|].
        destruct (isinstance_CallError e); simpl; [done|].
        destruct (isinstance_Exception e); simpl; [|done].
        unfold Auth.get_realm, Auth.raise. simpl. by rewrite Hr, Hr'.
    + rewrite !target_absent by (by rewrite ?Hs, Hf). done.
    + rewrite !target_absent by (by rewrite ?Hs, Hf). done.
  - simpl. destruct (isinstance_CallError e); simpl; [done|].
    destruct (isinstance_Exception e); simpl; [|done].
    unfold Auth.bind, Auth.get_realm, Auth.raise. simpl. by rewrite Hr, Hr'.
Qed.

Lemma decorated_agree cls func c args kwargs st st' r :
  self st' = self st →
  realm (self st) = Some r →
  (∀ f, target_callback (self st) = Some (Callable f) →
        ∀ w w', fst (f (fst (validator_arguments cls (request c) args kwargs))
                       (snd (validator_arguments cls (request c) args kwargs)) w) =
                fst (f (fst (validator_arguments cls (request c) args kwargs))
                       (snd (validator_arguments cls (request c) args kwargs)) w')) →
  (∀ w w', fst (func c args kwargs w) = fst (func c args kwargs w')) →
  fst (decorated cls func c args kwargs st') = fst (decorated cls func c args kwargs st).
Proof.
  intros Hs Hr Hdet Hfunc. destruct (clash_or_not kwargs) as [Hk | [Hrq Hsf]].
  { unfold Auth.decorated, Auth.bind, call_handle_target, Auth.raise.
    destruct (kwargs !! "request"); [done|].
    destruct (kwargs !! "self"); [done|]. by destruct Hk. }
  rewrite !decorated_run by done.
  pose proof (handle_target_agree cls (request c) args kwargs st st' r Hs Hr Hdet) as H.
  destruct (handle_target _ _ _ _ st) as [[[]|e] s1],
           (handle_target _ _ _ _ st') as [[[]|e'] s1']; simpl in *;
    try discriminate; [apply Hfunc | congruence].
Qed.

(** C8.  Calling a decorated handler twice in a row with the same request
    and arguments, with a validator and a handler whose answers do not
    depend on the world they run in, gives the same outcome both times (the
    same result, or the same exception with the same realm and message); no
    call writes the decorator instance, so the second call starts from the
    instance that decoration left. *)
Theorem repeated_call_same_outcome cls func a w0 d st1 c args kwargs w tr :
  decorate cls func a (fresh w0) = (Return d, st1) →
  (∀ f, target_callback (self st1) = Some (Callable f) →
        ∀ w w', fst (f (fst (validator_arguments cls (request c) args kwargs))
                       (snd (validator_arguments cls (request c) args kwargs)) w) =
                fst (f (fst (validator_arguments cls (request c) args kwargs))
                       (snd (validator_arguments cls (request c) args kwargs)) w')) →
  (∀ w w', fst (func c args kwargs w) = fst (func c args kwargs w')) →
  fst (d c args kwargs (snd (d c args kwargs (at_request (self st1) w tr)))) =
    fst (d c args kwargs (at_request (self st1) w tr)) ∧
  self (snd (d c args kwargs (at_request (self st1) w tr))) = self st1 ∧
  self (snd (d c args kwargs (snd (d c args kwargs (at_request (self st1) w tr))))) =
    self st1.
Proof.
  intros Hd Hdet Hfunc.
  apply decorate_fresh in Hd as (-> & _ & _ & (r & Hr & _) & _).
  pose proof (decorated_self cls func c args kwargs (at_request (self st1) w tr) r Hr)
    as Hs1.
  simpl in Hs1. split; [|split; [done|]].
  - by apply (decorated_agree _ _ _ _ _ (at_request (self st1) w tr) _ r).
  - rewrite (decorated_self _ _ _ _ _ _ r) by by rewrite Hs1. done.
Qed.

End Facts.
End AuthFacts.

(** ** The claims at the scenarios *)

Module AuthScenarios.
Import Auth Scenarios AuthFacts.


Example scenario_3_bearer_token_absent :
  call token_auth (with_target (Callable token_target)) no_credentials 7 [] =
  (Raise (AccessDenied "Bearer" "access_token is required"),
   at_request (instance_of token_auth (with_target (Callable token_target))) 7 []).
Proof. reflexivity. Qed.


Example scenario_1_basic_auth :
  fst (call basic_auth (with_target (Callable basic_target))
            (basic_request "foo" "bar") 0 []) =
  Return (VStr "hello world").
Proof. vm_compute. reflexivity. Qed.


Example scenario_2_wrong_password :
  fst (call basic_auth (with_target (Callable basic_target))
            (basic_request "foo" "wrong") 0 []) =
  Raise (AccessDenied "basic" "target did not return True").
Proof. vm_compute. reflexivity. Qed.

(** Scenario 5: generic [auth] whose validator fails on a lookup. *)
Example scenario_5_lookup_failure :
  fst (call auth {| arg_realm := Some "custom";
                    arg_target := Some (Callable lookup_failure_target) |}
            no_credentials 0 []) =
  Raise (AccessDenied "custom" "no such user").
Proof. vm_compute. reflexivity. Qed.

(** [except Exception] does not catch [SystemExit]: it leaves the decorated
    callable as it is. *)
Example system_exit_propagates :
  fst (call basic_auth (with_target (Callable exiting_target))
            (basic_request "foo" "bar") 0 []) =
  Raise (PyError SystemExit "bye").
Proof. vm_compute. reflexivity. Qed.




(** [@basic_auth(target=None)]: the target is written, decoration succeeds,
    and the instance holds no validator. *)
Example decoration_with_target_none :
  decoration basic_auth (with_target (Plain VNone)) =
  (Return (decorated true basic_auth hello_world),
   {| self := {| realm := Some "basic"; target_callback := None |};
      world := 0; trace := [] |}).
Proof. reflexivity. Qed.



(** A validator whose parameters are not the names the decorator passes:
    the call does not bind, and the result is the setup error. *)
Example misnamed_validator_is_setup_error :
  fst (call basic_auth (with_target (Callable misnamed_target))
            (basic_request "foo" "bar") 0 []) =
  Raise (CallError 403 "You need a validator function to use authentication").
Proof. vm_compute. reflexivity. Qed.



(** The realm of a [client_auth] decorator, at a request without client
    credentials. *)
Lemma client_auth_realm_is_basic_witness :
  realm (instance_of client_auth (with_target (Callable client_target))) = Some "basic" ∧
  (handle_target true client_auth no_credentials [] ∅
     (at_request (instance_of client_auth (with_target (Callable client_target))) 0 []) =
   (Raise (AccessDenied "basic" "client_id is required"),
    at_request (instance_of client_auth (with_target (Callable client_target))) 0 []) →
   "basic" = "basic" ∨
   raised_by_validator true
     (instance_of client_auth (with_target (Callable client_target)))
     (validator_arguments client_auth no_credentials [] ∅) 0
     (AccessDenied "basic" "client_id is required")).
Proof.
  destruct (client_auth_realm_is_basic true hello_world (Callable client_target) 0)
    as [_ (st1 & Hd & Hr & Hrealm)].
  assert (instance_of client_auth (with_target (Callable client_target)) = self st1)
    as -> by exact (f_equal (fun x => self (snd x)) Hd).
  split; [exact Hr|].
  exact (Hrealm no_credentials [] ∅ 0 [] "basic" "client_id is required" _).
Defined.

Example client_auth_denies_with_basic_realm :
  fst (call client_auth (with_target (Callable client_target)) no_credentials 0 []) =
  Raise (AccessDenied "basic" "client_id is required").
Proof. vm_compute. reflexivity. Qed.

(** Two calls in a row with a wrong password: the validator runs twice, the
    world moves on, and the outcome is the same. *)
Lemma repeated_call_same_outcome_witness :
  decoration basic_auth (with_target (Callable basic_target)) =
    (Return (decorated true basic_auth hello_world),
     snd (decoration basic_auth (with_target (Callable basic_target)))) ∧
  fst (decorated true basic_auth hello_world (controller (basic_request "foo" "wrong")) [] ∅
         (snd (call basic_auth (with_target (Callable basic_target))
                    (basic_request "foo" "wrong") 0 []))) =
    fst (call basic_auth (with_target (Callable basic_target))
              (basic_request "foo" "wrong") 0 []) ∧
  self (snd (call basic_auth (with_target (Callable basic_target))
                  (basic_request "foo" "wrong") 0 [])) =
    instance_of basic_auth (with_target (Callable basic_target)) ∧
  self (snd (decorated true basic_auth hello_world
               (controller (basic_request "foo" "wrong")) [] ∅
               (snd (call basic_auth (with_target (Callable basic_target))
                          (basic_request "foo" "wrong") 0 [])))) =
    instance_of basic_auth (with_target (Callable basic_target)).
Proof.
  assert (decoration basic_auth (with_target (Callable basic_target)) =
            (Return (decorated true basic_auth hello_world),
             snd (decoration basic_auth (with_target (Callable basic_target))))) as H1
    by reflexivity.
  split; [exact H1|].
  refine (repeated_call_same_outcome true basic_auth hello_world
            (with_target (Callable basic_target)) 0 _ _
            (controller (basic_request "foo" "wrong")) [] ∅ 0 [] H1 _ _).
  - intros f Hf w w'. injection Hf as <-. reflexivity.
  - intros w w'. reflexivity.
Defined.

Example repeated_call_world_moves_on :
  world (snd (call basic_auth (with_target (Callable basic_target))
                   (basic_request "foo" "wrong") 0 [])) = 1 ∧
  fst (call basic_auth (with_target (Callable basic_target))
            (basic_request "foo" "wrong") 1 []) =
  fst (call basic_auth (with_target (Callable basic_target))
            (basic_request "foo" "wrong") 0 []).
Proof. split; vm_compute; reflexivity. Qed.

(** *** A keyword argument named [request]

    The calls below carry the keyword argument [request="x"]; the call of
    [handle_target] inside the decorated handler raises [TypeError], whatever
    the credentials and the validator are, and runs no user code. *)




(** The same for a wrong password, for a decorator without validator, and
    for a keyword argument named [self]. *)
Example wrong_password_with_request_keyword :
  fst (call_with_request_keyword basic_auth (with_target (Callable basic_target))
         (basic_request "foo" "wrong") 0 []) =
  Raise (PyError TypeError
           "handle_target() got multiple values for keyword argument 'request'").
Proof. vm_compute. reflexivity. Qed.

Example no_validator_with_request_keyword :
  fst (call_with_request_keyword auth without_arguments no_credentials 0 []) =
  Raise (PyError TypeError
           "handle_target() got multiple values for keyword argument 'request'").
Proof. vm_compute. reflexivity. Qed.

Example self_keyword_is_type_error :
  decorated true basic_auth hello_world (controller (basic_request "foo" "bar")) []
    (<["self" := VInt 1]> ∅)
    (at_request (instance_of basic_auth (with_target (Callable basic_target))) 0 []) =
  (Raise (PyError TypeError
            "handle_target() got multiple values for keyword argument 'self'"),
   at_request (instance_of basic_auth (with_target (Callable basic_target))) 0 []).
Proof. vm_compute. reflexivity. Qed.

End AuthScenarios.

(** ** Properties of the WSGI adapter *)

Module WsgiFacts.
Import Wsgi.

Lemma slice_from_append (p rest : string) :
  slice_from (String.length p) (p +:+ rest) = rest.
Proof. induction p as [|ch p IH]; simpl; [by destruct rest | done]. Qed.

Lemma startswith_append (k p : string) :
  startswith k p = true ↔ k = p +:+ slice_from (String.length p) k.
Proof.
  unfold startswith. revert k. induction p as [|ch p IH]; intros k; simpl.
  - by destruct k.
  - destruct k as [|ch' k]; simpl; [done|].
    destruct (Ascii.ascii_dec ch ch') as [->|Hne].
    + change (String ch' p +:+ ?x) with (String ch' (p +:+ x)). split.
      * intros H. apply IH in H. f_equal. exact H.
      * intros [= H]. by apply IH.
    + change (String ch p +:+ ?x) with (String ch (p +:+ x)).
      split; [done | by intros [= ->]].
Qed.

(** The header loop over items with distinct keys: the header [k] ends as
    the value of the item ["HTTP_" + k] when there is one, and is untouched
    otherwise. *)
Lemma copy_headers_lookup (items : list (string * PyVal)) (h : gmap string PyVal) k :
  NoDup (items.*1) →
  copy_headers items h !! k =
  match (list_to_map items : gmap string PyVal) !! ("HTTP_" +:+ k) with
  | Some v => Some v
  | None => h !! k
  end.
Proof.
  revert h. induction items as [|[k0 v0] items IH]; intros h Hnd; simpl.
  - by rewrite lookup_empty.
  - apply NoDup_cons in Hnd as [Hk0 Hnd]. unfold copy_headers in *. simpl.
    rewrite IH by done. clear IH.
    destruct (decide (k0 = "HTTP_" +:+ k)) as [->|Hne].
    + rewrite lookup_insert_eq.
      rewrite (not_elem_of_list_to_map_1 items) by done.
      assert (startswith ("HTTP_" +:+ k) "HTTP_" = true) as ->
        by (by apply startswith_append).
      change (slice_from 5 ("HTTP_" +:+ k)) with k.
      by rewrite lookup_insert_eq.
    + rewrite lookup_insert_ne by done.
      destruct (list_to_map items !! _); [done|].
      destruct (startswith k0 "HTTP_") eqn:Hs; [|done].
      apply startswith_append in Hs. rewrite lookup_insert_ne; [done|].
      intros Hk. apply Hne. rewrite Hs. by rewrite <- Hk.
Qed.

Lemma copy_headers_of_dict (raw : gmap string PyVal) k :
  copy_headers (map_to_list raw) ∅ !! k = raw !! ("HTTP_" +:+ k).
Proof.
  rewrite copy_headers_lookup by apply NoDup_fst_map_to_list.
  rewrite list_to_map_to_list, lookup_empty. by destruct (raw !! _).
Qed.

Section Facts.

Variable is_method : PyVal → string → bool.

(** C10.  On a raw request that has its method, path and query (and, when
    the method is POST, its input stream), [create_request] returns a request
    whose body is the contents of ['wsgi.input'] when the method is POST, as
    told by [is_method], and [None] for every other method, and whose headers
    are exactly the entries of the raw request under a key that starts with
    ['HTTP_'], each stored under that key without its first five
    characters. *)
Theorem create_request_body_and_headers (raw : gmap string PyVal) m p q contents :
  raw !! "REQUEST_METHOD" = Some m →
  raw !! "PATH_INFO" = Some p →
  raw !! "QUERY_STRING" = Some q →
  (is_method m "POST" = true → raw !! "wsgi.input" = Some (VFile contents)) →
  ∃ r,
    create_request is_method raw = Return r ∧
    method r = m ∧
    body r = (if is_method m "POST" then VStr contents else VNone) ∧
    (∀ k v, headers r !! k = Some v ↔
            ∃ k', raw !! k' = Some v ∧ startswith k' "HTTP_" = true ∧
                  k = slice_from 5 k').
Proof.
  intros Hm Hp Hq Hin. unfold create_request, getitem.
  rewrite Hm, Hp, Hq. simpl.
  assert (∀ k v,
            copy_headers (map_to_list raw) ∅ !! k = Some v ↔
            ∃ k', raw !! k' = Some v ∧ startswith k' "HTTP_" = true ∧
                  k = slice_from 5 k') as Hh.
  { intros k v. rewrite copy_headers_of_dict. split.
    - intros Hk. exists ("HTTP_" +:+ k).
      split; [done|]. split; [by apply startswith_append | reflexivity].
    - intros (k' & Hk' & Hs & ->). apply startswith_append in Hs.
      change (String.length "HTTP_") with 5 in Hs. by rewrite <- Hs. }
  destruct (is_method m "POST").
  - rewrite Hin by done. simpl. eexists. split; [reflexivity|]. simpl.
    split; [done|]. split; [done|]. apply Hh.
  - simpl. eexists. split; [reflexivity|]. simpl.
    split; [done|]. split; [done|]. apply Hh.
Qed.

End Facts.

(** With [is_method] the exact comparison, the body is the contents of the
    input exactly for the method POST. *)
Lemma create_request_exact_method (raw : gmap string PyVal) r :
  create_request is_method_exact raw = Return r →
  (method r = VStr "POST" →
   ∃ contents, raw !! "wsgi.input" = Some (VFile contents) ∧ body r = VStr contents) ∧
  (method r ≠ VStr "POST" → body r = VNone).
Proof.
  unfold create_request, getitem, is_method_exact.
  destruct (raw !! "REQUEST_METHOD") as [m|]; simpl; [|discriminate].
  destruct (raw !! "PATH_INFO") as [p|]; simpl; [|discriminate].
  destruct (raw !! "QUERY_STRING") as [q|]; simpl; [|discriminate].
  case_bool_decide as Hm; simpl.
  - destruct (raw !! "wsgi.input") as [[| | | |contents]|]; simpl; try discriminate.
    intros [= <-]. simpl. split; [by eexists | done].
  - intros [= <-]. simpl. split; [done | done].
Qed.

(** The theorem at a POST request, with the exact comparison for [is_method]. *)
Lemma create_request_body_and_headers_witness :
  post_environ !! "REQUEST_METHOD" = Some (VStr "POST") ∧
  post_environ !! "PATH_INFO" = Some (VStr "/foo") ∧
  post_environ !! "QUERY_STRING" = Some (VStr "") ∧
  (is_method_exact (VStr "POST") "POST" = true →
   post_environ !! "wsgi.input" = Some (VFile "a=1")) ∧
  ∃ r,
    create_request is_method_exact post_environ = Return r ∧
    method r = VStr "POST" ∧
    body r = (if is_method_exact (VStr "POST") "POST" then VStr "a=1" else VNone) ∧
    (∀ k v, headers r !! k = Some v ↔
            ∃ k', post_environ !! k' = Some v ∧ startswith k' "HTTP_" = true ∧
                  k = slice_from 5 k').
Proof.
  assert (post_environ !! "REQUEST_METHOD" = Some (VStr "POST")) as H1
    by (vm_compute; reflexivity).
  assert (post_environ !! "PATH_INFO" = Some (VStr "/foo")) as H2
    by (vm_compute; reflexivity).
  assert (post_environ !! "QUERY_STRING" = Some (VStr "")) as H3
    by (vm_compute; reflexivity).
  assert (is_method_exact (VStr "POST") "POST" = true →
          post_environ !! "wsgi.input" = Some (VFile "a=1")) as H4
    by (intros _; vm_compute; reflexivity).
  exact (conj H1 (conj H2 (conj H3 (conj H4
    (create_request_body_and_headers is_method_exact post_environ
       (VStr "POST") (VStr "/foo") (VStr "") "a=1" H1 H2 H3 H4))))).
Defined.

(** The same requests evaluated: a POST carries its body, a GET none, and
    only the [HTTP_] entry becomes a header. *)
Example create_request_post :
  create_request is_method_exact post_environ =
  Return {| headers := <["HOST" := VStr "localhost"]> ∅;
            method := VStr "POST"; path := VStr "/foo"; query := VStr "";
            raw_request := Some post_environ; body := VStr "a=1" |}.
Proof. vm_compute. reflexivity. Qed.

Example create_request_get :
  create_request is_method_exact get_environ =
  Return {| headers := <["HOST" := VStr "localhost"]> ∅;
            method := VStr "GET"; path := VStr "/foo"; query := VStr "";
            raw_request := Some get_environ; body := VNone |}.
Proof. vm_compute. reflexivity. Qed.

End WsgiFacts.

(** ** Further properties of the auth decorators *)

Module AuthMore.
Import Auth More AuthFacts.

Section Facts.

Context {W : Type}.
Variable AccessDenied_is_CallError : bool.

Abbreviation isinstance_CallError := (Auth.isinstance_CallError AccessDenied_is_CallError).
Abbreviation handle_target := (Auth.handle_target (W:=W) AccessDenied_is_CallError).
Abbreviation decorated := (Auth.decorated (W:=W) AccessDenied_is_CallError).
Abbreviation decorate := (Auth.decorate (W:=W) AccessDenied_is_CallError).
Abbreviation verdict := (Auth.verdict AccessDenied_is_CallError).
Abbreviation raised_by_validator :=
  (Auth.raised_by_validator (W:=W) AccessDenied_is_CallError).

Implicit Types (cls : AuthClass) (func : Handler W) (a : DecoratorArgs W).
Implicit Types (st : State W) (i : Instance W) (w : W) (tr : list Event).
Implicit Types (c : Controller) (args : list PyVal) (kwargs : gmap string PyVal).
Implicit Types (f : Callback W) (e : Exc) (r : string).

Lemma verdict_raise r e : ∃ e', verdict r (Raise e) = Raise e'.
Proof.
  simpl. destruct (isinstance_AttributeError_TypeError e); [by eexists|].
  destruct (isinstance_CallError e); [by eexists|].
  destruct (isinstance_Exception e); by eexists.
Qed.

(** The three ways a call of a decorated handler can go: no user code runs
    (also when a keyword argument clashes with a parameter of
    [handle_target]);
    the validator runs and the call is rejected; the validator accepts and
    the handler runs. *)
Lemma decorated_cases cls func c args kwargs st r :
  realm (self st) = Some r →
  (∃ e, decorated cls func c args kwargs st = (Raise e, st))
  ∨ (∃ f e,
       target_callback (self st) = Some (Callable f) ∧
       (∀ fv, fv ∈ required_fields cls (request c) → missing fv = false) ∧
       verdict r (fst (f (fst (validator_arguments cls (request c) args kwargs))
                         (snd (validator_arguments cls (request c) args kwargs))
                         (world st))) = Raise e ∧
       decorated cls func c args kwargs st =
       (Raise e,
        {| self := self st;
           world := snd (f (fst (validator_arguments cls (request c) args kwargs))
                           (snd (validator_arguments cls (request c) args kwargs))
                           (world st));
           trace := trace st ++
                    [TargetCalled (fst (validator_arguments cls (request c) args kwargs))
                                  (snd (validator_arguments cls (request c) args kwargs))] |}))
  ∨ (∃ f v w1,
       target_callback (self st) = Some (Callable f) ∧
       (∀ fv, fv ∈ required_fields cls (request c) → missing fv = false) ∧
       f (fst (validator_arguments cls (request c) args kwargs))
         (snd (validator_arguments cls (request c) args kwargs)) (world st) =
         (Return v, w1) ∧
       truthy v = true ∧
       decorated cls func c args kwargs st =
       (fst (func c args kwargs w1),
        {| self := self st; world := snd (func c args kwargs w1);
           trace := trace st ++
                    [TargetCalled (fst (validator_arguments cls (request c) args kwargs))
                                  (snd (validator_arguments cls (request c) args kwargs));
                     HandlerCalled c args kwargs] |})).
Proof.
  intros Hr. destruct (clash_or_not kwargs) as [Hk | [Hrq Hsf]].
  { left. destruct (decorated_clash AccessDenied_is_CallError cls func c args kwargs st Hk)
      as [m Hm]. by eexists. }
  rewrite decorated_run by done.
  destruct (handle_target_cases AccessDenied_is_CallError cls (request c) args kwargs st r Hr)
    as [(fv & _ & _ & ->) | [Hall ->]]; [left; by eexists|].
  destruct (target_callback (self st)) as [[f|v]|] eqn:Hf;
    [|left; by eexists|left; by eexists].
  simpl.
  destruct (f _ _ (world st)) as [[v|e] w1] eqn:Hfe; simpl.
  - destruct (truthy v) eqn:Hv; simpl.
    + right; right. exists f, v, w1. rewrite Hfe. repeat split; try done.
      by rewrite <- app_assoc.
    + right; left. exists f. eexists. rewrite Hfe. simpl. rewrite Hv.
      repeat split; done.
  - right; left. exists f. destruct (verdict_raise r e) as [e' He'].
    exists e'. rewrite Hfe. simpl in *. rewrite He'. repeat split; done.
Qed.

(** X1.  No bypass: when a call of a decorated handler invokes the handler,
    no required credential was missing, the instance holds a callable
    validator, and that validator returned a truthy value on the extracted
    credentials in the world of the call. *)
Theorem handler_runs_only_after_truthy_validator cls func c args kwargs st r :
  realm (self st) = Some r →
  handler_calls (trace (snd (decorated cls func c args kwargs st))) ≠
    handler_calls (trace st) →
  (∀ fv, fv ∈ required_fields cls (request c) → missing fv = false) ∧
  ∃ f v,
    target_callback (self st) = Some (Callable f) ∧
    fst (f (fst (validator_arguments cls (request c) args kwargs))
           (snd (validator_arguments cls (request c) args kwargs)) (world st)) =
      Return v ∧
    truthy v = true.
Proof.
  intros Hr Hcalls.
  destruct (decorated_cases cls func c args kwargs st r Hr)
    as [[e He] | [(f & e & _ & _ & _ & He) | (f & v & w1 & Hf & Hall & Hfv & Hv & _)]].
  - rewrite He in Hcalls. done.
  - rewrite He in Hcalls. simpl in Hcalls. by rewrite handler_calls_target in Hcalls.
  - split; [done|]. exists f, v. by rewrite Hfv.
Qed.

(** X2.  A call of a decorated handler only appends to the trace of calls,
    and what it appends is nothing, or one validator call, or one validator
    call followed by one handler call: the validator runs at most once, the
    handler at most once and never before or without the validator. *)
Theorem at_most_one_validator_and_handler_call cls func c args kwargs st r :
  realm (self st) = Some r →
  ∃ l,
    trace (snd (decorated cls func c args kwargs st)) = trace st ++ l ∧
    (l = [] ∨
     l = [TargetCalled (fst (validator_arguments cls (request c) args kwargs))
                       (snd (validator_arguments cls (request c) args kwargs))] ∨
     l = [TargetCalled (fst (validator_arguments cls (request c) args kwargs))
                       (snd (validator_arguments cls (request c) args kwargs));
          HandlerCalled c args kwargs]) ∧
    (validator_calls l ≤ 1)%nat ∧ (handler_calls l ≤ validator_calls l)%nat.
Proof.
  intros Hr.
  destruct (decorated_cases cls func c args kwargs st r Hr)
    as [[e ->] | [(f & e & _ & _ & _ & ->) | (f & v & w1 & _ & _ & _ & _ & ->)]]; simpl.
  - exists []. rewrite app_nil_r. split; [done|]. split; [by left|].
    unfold validator_calls, handler_calls. simpl. lia.
  - eexists. split; [reflexivity|]. split; [right; by left|].
    unfold validator_calls, handler_calls. simpl. lia.
  - eexists. split; [reflexivity|]. split; [right; by right|].
    unfold validator_calls, handler_calls. simpl. lia.
Qed.



(** X4.  The generic [auth] extracts nothing and rejects nothing itself:
    whatever the request carries, its validator is called once, with the
    request followed by the positional arguments of the handler call and
    with its keyword arguments, and the result is the classification of the
    validator's answer. *)
Theorem generic_auth_always_consults_validator (q : Request) args kwargs st r f :
  realm (self st) = Some r →
  target_callback (self st) = Some (Callable f) →
  handle_target auth q args kwargs st =
  (verdict r (fst (f (ArgRequest q :: (ArgVal <$> args)) (ArgVal <$> kwargs) (world st))),
   {| self := self st;
      world := snd (f (ArgRequest q :: (ArgVal <$> args)) (ArgVal <$> kwargs) (world st));
      trace := trace st ++
               [TargetCalled (ArgRequest q :: (ArgVal <$> args)) (ArgVal <$> kwargs)] |}).
Proof.
  intros Hr Hf.
  rewrite (handle_target_present AccessDenied_is_CallError auth q args kwargs st _ r
             eq_refl Hr).
  by rewrite Hf.
Qed.

(** X6.  The generic [auth] takes its realm from the decoration site, the
    empty string when none is written, and every [AccessDenied] it builds
    carries that realm (the only other [AccessDenied] is one the validator
    itself raised). *)
Theorem generic_auth_carries_callers_realm
    func a st d st1 (q : Request) args kwargs w tr r' m st2 :
  decorate auth func a st = (Return d, st1) →
  handle_target auth q args kwargs (at_request (self st1) w tr) =
    (Raise (AccessDenied r' m), st2) →
  realm (self st1) = Some (default "" (arg_realm a)) ∧
  (r' = default "" (arg_realm a) ∨
   raised_by_validator (self st1) (validator_arguments auth q args kwargs) w
                       (AccessDenied r' m)).
Proof.
  intros Hd Hh.
  assert (realm (self st1) = Some (default "" (arg_realm a))) as Hr.
  { simpl in Hd. rewrite auth_decorate_run in Hd. by injection Hd as _ <-. }
  split; [done|].
  by apply (access_denied_realm AccessDenied_is_CallError _ _ _ _ _
              (default "" (arg_realm a))) in Hh.
Qed.

(** X7.  A [CallError] leaves [handle_target] in two ways only, and never
    when a credential is missing: as the setup error, with status 403 and
    the validator-required message, when the instance holds no callable
    validator or the validator raised [AttributeError] or [TypeError]; or as
    the validator's own [CallError], unchanged. *)
Theorem call_error_is_setup_error_or_validators
    cls (q : Request) args kwargs st r code m st2 :
  realm (self st) = Some r →
  handle_target cls q args kwargs st = (Raise (CallError code m), st2) →
  (∀ fv, fv ∈ required_fields cls q → missing fv = false) ∧
  ((code = 403%Z ∧ m = "You need a validator function to use authentication" ∧
    match target_callback (self st) with
    | Some (Callable f) =>
        ∃ e, fst (f (fst (validator_arguments cls q args kwargs))
                    (snd (validator_arguments cls q args kwargs)) (world st)) = Raise e ∧
             isinstance_AttributeError_TypeError e = true
    | Some (Plain _) | None => True
    end)
   ∨ raised_by_validator (self st) (validator_arguments cls q args kwargs) (world st)
                         (CallError code m)).
Proof.
  intros Hr Hh.
  destruct (handle_target_cases AccessDenied_is_CallError cls q args kwargs st r Hr)
    as [(fv & _ & _ & Hm) | [Hall Hp]].
  { rewrite Hm in Hh. discriminate. }
  split; [done|]. rewrite Hp in Hh. clear Hp.
  destruct (target_callback (self st)) as [[f|v]|] eqn:Hf.
  - simpl in Hh.
    destruct (f _ _ (world st)) as [[v|e] w1] eqn:Hfe; simpl in Hh.
    + destruct (truthy v); discriminate.
    + destruct (isinstance_AttributeError_TypeError e) eqn:Hat.
      * injection Hh as <- <- _. left. split; [done|]. split; [done|]. by exists e.
      * destruct (isinstance_CallError e) eqn:Hce.
        -- injection Hh as -> _. right. split; [done|]. exists f. by rewrite Hfe.
        -- destruct (isinstance_Exception e); [discriminate|].
           injection Hh as -> _. discriminate Hce.
  - injection Hh as <- <- _. by left.
  - injection Hh as <- <- _. by left.
Qed.

(** X8.  No ordinary exception escapes [handle_target]: an exception that
    leaves it and is neither [CallError] nor [AccessDenied] is one the
    validator raised whose class does not derive from [Exception] (such as
    [SystemExit] or [KeyboardInterrupt]); every exception of the validator
    that derives from [Exception] is converted. *)
Theorem no_ordinary_exception_escapes cls (q : Request) args kwargs st r k m st2 :
  realm (self st) = Some r →
  handle_target cls q args kwargs st = (Raise (PyError k m), st2) →
  derives k Exception = false ∧
  ∃ f, target_callback (self st) = Some (Callable f) ∧
       fst (f (fst (validator_arguments cls q args kwargs))
              (snd (validator_arguments cls q args kwargs)) (world st)) =
       Raise (PyError k m).
Proof.
  intros Hr Hh.
  destruct (handle_target_cases AccessDenied_is_CallError cls q args kwargs st r Hr)
    as [(fv & _ & _ & Hm) | [Hall Hp]].
  { rewrite Hm in Hh. discriminate. }
  rewrite Hp in Hh. clear Hp.
  destruct (target_callback (self st)) as [[f|v]|] eqn:Hf; try discriminate.
  simpl in Hh.
  destruct (f _ _ (world st)) as [[v|e] w1] eqn:Hfe; simpl in Hh.
  - destruct (truthy v); discriminate.
  - destruct (isinstance_AttributeError_TypeError e); [discriminate|].
    destruct (isinstance_CallError e) eqn:Hce.
    + injection Hh as -> _. discriminate Hce.
    + destruct (isinstance_Exception e) eqn:Hex; [discriminate|].
      injection Hh as -> _. split; [done|]. exists f. by rewrite Hfe.
Qed.

End Facts.
End AuthMore.

(** ** The further properties at the scenarios *)

Module AuthMoreScenarios.
Import Auth More Scenarios AuthFacts AuthMore.

(** Scenario 1 read backwards: the handler ran, so the validator accepted. *)
Lemma handler_runs_only_after_truthy_validator_witness :
  realm (instance_of basic_auth (with_target (Callable basic_target))) = Some "basic" ∧
  handler_calls
    (trace (snd (call basic_auth (with_target (Callable basic_target))
                      (basic_request "foo" "bar") 0 []))) ≠ handler_calls [] ∧
  (∀ fv, fv ∈ required_fields basic_auth (basic_request "foo" "bar") →
         missing fv = false) ∧
  ∃ f v,
    target_callback (instance_of basic_auth (with_target (Callable basic_target))) =
      Some (Callable f) ∧
    fst (f (fst (validator_arguments basic_auth (basic_request "foo" "bar") [] ∅))
           (snd (validator_arguments basic_auth (basic_request "foo" "bar") [] ∅)) 0) =
      Return v ∧
    truthy v = true.
Proof.
  assert (realm (instance_of basic_auth (with_target (Callable basic_target))) =
            Some "basic") as H1 by reflexivity.
  assert (handler_calls
            (trace (snd (call basic_auth (with_target (Callable basic_target))
                              (basic_request "foo" "bar") 0 []))) ≠ handler_calls [])
    as H2 by (vm_compute; discriminate).
  split; [exact H1|]. split; [exact H2|].
  exact (handler_runs_only_after_truthy_validator true basic_auth hello_world
           (controller (basic_request "foo" "bar")) [] ∅
           (at_request (instance_of basic_auth (with_target (Callable basic_target))) 0 [])
           "basic" H1 H2).
Defined.

(** Scenario 2: one validator call, no handler call. *)
Lemma at_most_one_validator_and_handler_call_witness :
  realm (instance_of basic_auth (with_target (Callable basic_target))) = Some "basic" ∧
  ∃ l,
    trace (snd (call basic_auth (with_target (Callable basic_target))
                     (basic_request "foo" "wrong") 0 [])) = [] ++ l ∧
    (l = [] ∨
     l = [TargetCalled
            (fst (validator_arguments basic_auth (basic_request "foo" "wrong") [] ∅))
            (snd (validator_arguments basic_auth (basic_request "foo" "wrong") [] ∅))] ∨
     l = [TargetCalled
            (fst (validator_arguments basic_auth (basic_request "foo" "wrong") [] ∅))
            (snd (validator_arguments basic_auth (basic_request "foo" "wrong") [] ∅));
          HandlerCalled (controller (basic_request "foo" "wrong")) [] ∅]) ∧
    (validator_calls l ≤ 1)%nat ∧ (handler_calls l ≤ validator_calls l)%nat.
Proof.
  assert (realm (instance_of basic_auth (with_target (Callable basic_target))) =
            Some "basic") as H1 by reflexivity.
  split; [exact H1|].
  exact (at_most_one_validator_and_handler_call true basic_auth hello_world
           (controller (basic_request "foo" "wrong")) [] ∅
           (at_request (instance_of basic_auth (with_target (Callable basic_target))) 0 [])
           "basic" H1).
Defined.


(** A username without a password: the password is the field that is named. *)
Example password_is_reported_when_username_is_present :
  fst (call basic_auth (with_target (Callable basic_target))
            {| get_auth_basic := (VStr "foo", VStr "");
               client_tokens := (VNone, VNone); access_token := VNone |} 0 []) =
  Raise (AccessDenied "basic" "password is required").
Proof. vm_compute. reflexivity. Qed.

(** The generic [auth] on a request without any credentials, called with one
    positional argument. *)
Lemma generic_auth_always_consults_validator_witness :
  realm (instance_of auth custom_auth) = Some "custom" ∧
  target_callback (instance_of auth custom_auth) = Some (Callable lookup_failure_target) ∧
  handle_target true auth no_credentials [VStr "page"] ∅
    (at_request (instance_of auth custom_auth) 0 []) =
  (verdict true "custom"
     (fst (lookup_failure_target
             (ArgRequest no_credentials :: (ArgVal <$> [VStr "page"])) (ArgVal <$> ∅) 0)),
   {| self := instance_of auth custom_auth;
      world := snd (lookup_failure_target
                      (ArgRequest no_credentials :: (ArgVal <$> [VStr "page"]))
                      (ArgVal <$> ∅) 0);
      trace := [] ++ [TargetCalled (ArgRequest no_credentials :: (ArgVal <$> [VStr "page"]))
                                   (ArgVal <$> ∅)] |}).
Proof.
  assert (realm (instance_of auth custom_auth) = Some "custom") as H1 by reflexivity.
  assert (target_callback (instance_of auth custom_auth) =
            Some (Callable lookup_failure_target)) as H2 by reflexivity.
  split; [exact H1|]. split; [exact H2|].
  exact (generic_auth_always_consults_validator true no_credentials [VStr "page"] ∅
           (at_request (instance_of auth custom_auth) 0 []) "custom"
           lookup_failure_target H1 H2).
Defined.

(** The validator above takes the request only: called with a positional
    argument of the handler it does not bind, which is the setup error. *)
Example generic_auth_forwards_handler_arguments :
  fst (handle_target true auth no_credentials [VStr "page"] ∅
         (at_request (instance_of auth custom_auth) 0 [])) =
  Raise (CallError 403 "You need a validator function to use authentication").
Proof. vm_compute. reflexivity. Qed.

(** Scenario 5 with its realm. *)
Lemma generic_auth_carries_callers_realm_witness :
  decoration auth custom_auth =
    (Return (decorated true auth hello_world), snd (decoration auth custom_auth)) ∧
  handle_target true auth no_credentials [] ∅
    (at_request (instance_of auth custom_auth) 0 []) =
    (Raise (AccessDenied "custom" "no such user"),
     snd (handle_target true auth no_credentials [] ∅
            (at_request (instance_of auth custom_auth) 0 []))) ∧
  realm (instance_of auth custom_auth) = Some (default "" (arg_realm custom_auth)) ∧
  ("custom" = default "" (arg_realm custom_auth) ∨
   raised_by_validator true (instance_of auth custom_auth)
     (validator_arguments auth no_credentials [] ∅) 0
     (AccessDenied "custom" "no such user")).
Proof.
  assert (decoration auth custom_auth =
            (Return (decorated true auth hello_world), snd (decoration auth custom_auth)))
    as H1 by reflexivity.
  assert (handle_target true auth no_credentials [] ∅
            (at_request (instance_of auth custom_auth) 0 []) =
          (Raise (AccessDenied "custom" "no such user"),
           snd (handle_target true auth no_credentials [] ∅
                  (at_request (instance_of auth custom_auth) 0 [])))) as H2
    by (vm_compute; reflexivity).
  split; [exact H1|]. split; [exact H2|].
  exact (generic_auth_carries_callers_realm true hello_world custom_auth (fresh 0) _ _
           no_credentials [] ∅ 0 [] "custom" "no such user" _ H1 H2).
Defined.

(** Scenario 4 read backwards: the 403 is the setup error. *)
Lemma call_error_is_setup_error_or_validators_witness :
  realm (instance_of client_auth (with_target (Plain VNone))) = Some "basic" ∧
  handle_target true client_auth (client_request "foo" "bar") [] ∅
    (at_request (instance_of client_auth (with_target (Plain VNone))) 0 []) =
    (Raise (CallError 403 "You need a validator function to use authentication"),
     at_request (instance_of client_auth (with_target (Plain VNone))) 0 []) ∧
  (∀ fv, fv ∈ required_fields client_auth (client_request "foo" "bar") →
         missing fv = false) ∧
  ((403%Z = 403%Z ∧
    "You need a validator function to use authentication" =
      "You need a validator function to use authentication" ∧
    True)
   ∨ raised_by_validator true (instance_of client_auth (with_target (Plain VNone)))
       (validator_arguments client_auth (client_request "foo" "bar") [] ∅) 0
       (CallError 403 "You need a validator function to use authentication")).
Proof.
  assert (realm (instance_of client_auth (with_target (Plain VNone))) = Some "basic")
    as H1 by reflexivity.
  assert (handle_target true client_auth (client_request "foo" "bar") [] ∅
            (at_request (instance_of client_auth (with_target (Plain VNone))) 0 []) =
          (Raise (CallError 403 "You need a validator function to use authentication"),
           at_request (instance_of client_auth (with_target (Plain VNone))) 0 [])) as H2
    by (vm_compute; reflexivity).
  split; [exact H1|]. split; [exact H2|].
  exact (call_error_is_setup_error_or_validators true client_auth
           (client_request "foo" "bar") [] ∅
           (at_request (instance_of client_auth (with_target (Plain VNone))) 0 [])
           "basic" 403 _ _ H1 H2).
Defined.

(** A validator that exits: [SystemExit] leaves as it is. *)
Lemma no_ordinary_exception_escapes_witness :
  realm (instance_of basic_auth (with_target (Callable exiting_target))) = Some "basic" ∧
  handle_target true basic_auth (basic_request "foo" "bar") [] ∅
    (at_request (instance_of basic_auth (with_target (Callable exiting_target))) 0 []) =
    (Raise (PyError SystemExit "bye"),
     snd (handle_target true basic_auth (basic_request "foo" "bar") [] ∅
            (at_request (instance_of basic_auth (with_target (Callable exiting_target)))
                        0 []))) ∧
  derives SystemExit Exception = false ∧
  ∃ f,
    target_callback (instance_of basic_auth (with_target (Callable exiting_target))) =
      Some (Callable f) ∧
    fst (f (fst (validator_arguments basic_auth (basic_request "foo" "bar") [] ∅))
           (snd (validator_arguments basic_auth (basic_request "foo" "bar") [] ∅)) 0) =
    Raise (PyError SystemExit "bye").
Proof.
  assert (realm (instance_of basic_auth (with_target (Callable exiting_target))) =
            Some "basic") as H1 by reflexivity.
  assert (handle_target true basic_auth (basic_request "foo" "bar") [] ∅
            (at_request (instance_of basic_auth (with_target (Callable exiting_target)))
                        0 []) =
          (Raise (PyError SystemExit "bye"),
           snd (handle_target true basic_auth (basic_request "foo" "bar") [] ∅
                  (at_request
                     (instance_of basic_auth (with_target (Callable exiting_target)))
                     0 [])))) as H2
    by (vm_compute; reflexivity).
  split; [exact H1|]. split; [exact H2|].
  exact (no_ordinary_exception_escapes true basic_auth (basic_request "foo" "bar") [] ∅
           (at_request (instance_of basic_auth (with_target (Callable exiting_target))) 0 [])
           "basic" SystemExit "bye" _ H1 H2).
Defined.

End AuthMoreScenarios.

(** ** Further properties of the WSGI adapter *)

Module WsgiMore.
Import Wsgi More WsgiFacts.

#[local] Instance append_inj (p : string) : Inj (=) (=) (String.append p).
Proof.
  intros x y. induction p as [|ch p IH]; [done|].
  change (String ch (p +:+ x) = String ch (p +:+ y) → x = y).
  intros [= H]. by apply IH.
Qed.

Lemma map_size_kmap_append (p : string) (m : gmap string PyVal) :
  size (kmap (M2:=gmap string) (String.append p) m) = size m.
Proof.
  rewrite <- !length_map_to_list.
  rewrite (Permutation_length (map_to_list_kmap (String.append p) m)).
  apply length_fmap.
Qed.

Section Facts.

Variable is_method : PyVal → string → bool.

Lemma create_request_headers (raw : gmap string PyVal) r :
  create_request is_method raw = Return r →
  headers r = copy_headers (map_to_list raw) ∅.
Proof.
  unfold create_request, getitem, read.
  destruct (raw !! "REQUEST_METHOD") as [m|]; simpl; [|discriminate].
  destruct (raw !! "PATH_INFO") as [p|]; simpl; [|discriminate].
  destruct (raw !! "QUERY_STRING") as [q|]; simpl; [|discriminate].
  destruct (is_method m "POST"); simpl.
  - destruct (raw !! "wsgi.input") as [[| | | |contents]|]; simpl; try discriminate.
    by intros [= <-].
  - by intros [= <-].
Qed.

(** X9.  [create_request] fails on the first of REQUEST_METHOD, PATH_INFO and
    QUERY_STRING that the raw request lacks, with the [KeyError] of that
    key; with all three present it fails only for a POST, with the
    [KeyError] of a missing ['wsgi.input'] or the [AttributeError] of an
    input that cannot be read. *)
Theorem create_request_errors (raw : gmap string PyVal) e :
  create_request is_method raw = Raise e →
  match raw !! "REQUEST_METHOD", raw !! "PATH_INFO", raw !! "QUERY_STRING" with
  | None, _, _ => e = PyError KeyError "REQUEST_METHOD"
  | Some _, None, _ => e = PyError KeyError "PATH_INFO"
  | Some _, Some _, None => e = PyError KeyError "QUERY_STRING"
  | Some m, Some _, Some _ =>
      is_method m "POST" = true ∧
      match raw !! "wsgi.input" with
      | None => e = PyError KeyError "wsgi.input"
      | Some (VFile _) => False
      | Some _ => ∃ msg, e = PyError AttributeError msg
      end
  end.
Proof.
  unfold create_request, getitem, read.
  destruct (raw !! "REQUEST_METHOD") as [m|]; simpl; [|by intros [= <-]].
  destruct (raw !! "PATH_INFO") as [p|]; simpl; [|by intros [= <-]].
  destruct (raw !! "QUERY_STRING") as [q|]; simpl; [|by intros [= <-]].
  destruct (is_method m "POST"); simpl; [|discriminate].
  destruct (raw !! "wsgi.input") as [[| | | |contents]|]; simpl;
    try discriminate; intros [= <-]; split; by eauto.
Qed.

(** X10.  [create_request] returns exactly when the raw request has
    REQUEST_METHOD, PATH_INFO and QUERY_STRING and, for a POST, a readable
    ['wsgi.input']; the input is not looked at for another method.  The
    request it returns has the method, path and query of the raw request
    and keeps the whole raw request. *)
Theorem create_request_returns_iff (raw : gmap string PyVal) :
  ((∃ r, create_request is_method raw = Return r) ↔
   ∃ m p q,
     raw !! "REQUEST_METHOD" = Some m ∧ raw !! "PATH_INFO" = Some p ∧
     raw !! "QUERY_STRING" = Some q ∧
     (is_method m "POST" = true →
      ∃ contents, raw !! "wsgi.input" = Some (VFile contents))) ∧
  (∀ r, create_request is_method raw = Return r →
        raw !! "REQUEST_METHOD" = Some (method r) ∧
        raw !! "PATH_INFO" = Some (path r) ∧
        raw !! "QUERY_STRING" = Some (query r) ∧
        raw_request r = Some raw).
Proof.
  unfold create_request, getitem, read. split; [split|].
  - intros [r Hr].
    destruct (raw !! "REQUEST_METHOD") as [m|]; simpl in Hr; [|discriminate].
    destruct (raw !! "PATH_INFO") as [p|]; simpl in Hr; [|discriminate].
    destruct (raw !! "QUERY_STRING") as [q|]; simpl in Hr; [|discriminate].
    exists m, p, q. repeat split; try done. intros Hm. rewrite Hm in Hr. simpl in Hr.
    destruct (raw !! "wsgi.input") as [[| | | |contents]|]; simpl in Hr;
      try discriminate. by eexists.
  - intros (m & p & q & -> & -> & -> & Hin). simpl.
    destruct (is_method m "POST"); simpl; [|by eexists].
    destruct Hin as [contents ->]; [done|]. simpl. by eexists.
  - intros r.
    destruct (raw !! "REQUEST_METHOD") as [m|]; simpl; [|discriminate].
    destruct (raw !! "PATH_INFO") as [p|]; simpl; [|discriminate].
    destruct (raw !! "QUERY_STRING") as [q|]; simpl; [|discriminate].
    destruct (is_method m "POST"); simpl.
    + destruct (raw !! "wsgi.input") as [[| | | |contents]|]; simpl; try discriminate.
      by intros [= <-].
    + by intros [= <-].
Qed.

(** X11.  Round trip of the header names: putting the prefix ['HTTP_'] back
    on every header of the request gives exactly the entries of the raw
    request whose key starts with ['HTTP_']; no two of them fall on the same
    header, so there are as many headers as such entries. *)
Theorem headers_reprefixed (raw : gmap string PyVal) r :
  create_request is_method raw = Return r →
  kmap (String.append "HTTP_") (headers r) =
    filter (λ kv, startswith (fst kv) "HTTP_" = true) raw ∧
  size (headers r) = size (filter (λ kv, startswith (fst kv) "HTTP_" = true) raw).
Proof.
  intros Hr. apply create_request_headers in Hr.
  assert (kmap (String.append "HTTP_") (headers r) =
          filter (λ kv, startswith (fst kv) "HTTP_" = true) raw) as Heq.
  { rewrite Hr. apply map_eq. intros k. apply option_eq. intros v.
    rewrite lookup_kmap_Some by apply _. rewrite map_lookup_filter_Some. simpl.
    split.
    - intros (i & -> & Hi). rewrite copy_headers_of_dict in Hi.
      split; [done|]. by apply startswith_append.
    - intros [Hk Hs]. apply startswith_append in Hs.
      exists (slice_from (String.length "HTTP_") k). split; [done|].
      rewrite copy_headers_of_dict. by rewrite <- Hs. }
  split; [done|]. by rewrite <- Heq, map_size_kmap_append.
Qed.

End Facts.

(** X12.  The headers do not depend on the order in which the dict hands out
    its items: the loop run over any arrangement of the items of the raw
    request, from any headers, ends with the same headers. *)
Theorem copy_headers_any_order (raw : gmap string PyVal)
    (items : list (string * PyVal)) (h : gmap string PyVal) :
  items ≡ₚ map_to_list raw →
  copy_headers items h = copy_headers (map_to_list raw) h.
Proof.
  intros Hperm.
  assert (NoDup (items.*1)) as Hnd.
  { rewrite Hperm. apply NoDup_fst_map_to_list. }
  apply map_eq. intros k.
  rewrite !copy_headers_lookup by (done || apply NoDup_fst_map_to_list).
  by rewrite (list_to_map_proper items (map_to_list raw) Hnd Hperm).
Qed.

(** A GET request without PATH_INFO. *)
Lemma create_request_errors_witness :
  create_request is_method_exact environ_without_path =
    Raise (PyError KeyError "PATH_INFO") ∧
  match environ_without_path !! "REQUEST_METHOD", environ_without_path !! "PATH_INFO",
        environ_without_path !! "QUERY_STRING" with
  | None, _, _ => PyError KeyError "PATH_INFO" = PyError KeyError "REQUEST_METHOD"
  | Some _, None, _ => PyError KeyError "PATH_INFO" = PyError KeyError "PATH_INFO"
  | Some _, Some _, None => PyError KeyError "PATH_INFO" = PyError KeyError "QUERY_STRING"
  | Some m, Some _, Some _ =>
      is_method_exact m "POST" = true ∧
      match environ_without_path !! "wsgi.input" with
      | None => PyError KeyError "PATH_INFO" = PyError KeyError "wsgi.input"
      | Some (VFile _) => False
      | Some _ => ∃ msg, PyError KeyError "PATH_INFO" = PyError AttributeError msg
      end
  end.
Proof.
  assert (create_request is_method_exact environ_without_path =
            Raise (PyError KeyError "PATH_INFO")) as H1 by (vm_compute; reflexivity).
  split; [exact H1|].
  exact (create_request_errors is_method_exact environ_without_path _ H1).
Defined.

(** The headers of the POST request of the scenarios. *)
Lemma headers_reprefixed_witness :
  create_request is_method_exact post_environ =
    Return {| headers := <["HOST" := VStr "localhost"]> ∅;
              method := VStr "POST"; path := VStr "/foo"; query := VStr "";
              raw_request := Some post_environ; body := VStr "a=1" |} ∧
  kmap (String.append "HTTP_") (<["HOST" := VStr "localhost"]> ∅ : gmap string PyVal) =
    filter (λ kv, startswith (fst kv) "HTTP_" = true) post_environ ∧
  size (<["HOST" := VStr "localhost"]> ∅ : gmap string PyVal) =
    size (filter (λ kv, startswith (fst kv) "HTTP_" = true) post_environ).
Proof.
  assert (create_request is_method_exact post_environ =
            Return {| headers := <["HOST" := VStr "localhost"]> ∅;
                      method := VStr "POST"; path := VStr "/foo"; query := VStr "";
                      raw_request := Some post_environ; body := VStr "a=1" |}) as H1
    by (vm_compute; reflexivity).
  split; [exact H1|].
  exact (headers_reprefixed is_method_exact post_environ _ H1).
Defined.

(** The items of the POST request in the reverse order. *)
Lemma copy_headers_any_order_witness :
  reverse (map_to_list post_environ) ≡ₚ map_to_list post_environ ∧
  copy_headers (reverse (map_to_list post_environ)) ∅ =
    copy_headers (map_to_list post_environ) ∅.
Proof.
  assert (reverse (map_to_list post_environ) ≡ₚ map_to_list post_environ) as H1
    by apply reverse_Permutation.
  split; [exact H1|].
  exact (copy_headers_any_order post_environ (reverse (map_to_list post_environ)) ∅ H1).
Defined.

End WsgiMore.
